(** * pywebcopy: the fetch, write and stylesheet-rewrite engine

    A shallow embedding of [pywebcopy/core.py] ([get], [_dummy_resp],
    [_watermark], [is_allowed], [new_file]) and [pywebcopy/elements.py]
    ([FileMixin.download_file], [FileMixin.write_file], [LinkTag.repl],
    [LinkTag.run]), with the properties of the design document checked
    against them.

    Conventions.  Python [bytes] are modelled as [string] (sequences of
    8-bit characters) and a Python [str] by its UTF-8 bytes, so [encode]
    is the identity and [decode] is the identity on well-formed UTF-8 and
    raises elsewhere; [lower] and [strip] act on the ASCII range, and
    statements that depend on them are made for ASCII text.  Functions
    that touch the disk, the network, the configuration or the
    [lru_cache] run in the monad [M], which threads a [World] and carries
    Python exceptions.  A computation describes what the calling thread
    does: the threads it starts are registered in the world, and their
    own runs are no part of it. *)

From Stdlib Require Import ZArith Bool List Ascii String.
From stdpp Require Import base option gmap strings list fin_maps.

Local Open Scope Z_scope.

(** ** Python string primitives used by the sources *)

Module Py.

Definition lower_ascii (c : ascii) : ascii :=
  let n := nat_of_ascii c in
  if ((65 <=? n) && (n <=? 90))%nat then ascii_of_nat (n + 32) else c.

(** [str.lower] on the ASCII range. *)
Fixpoint lower (s : string) : string :=
  match s with
  | EmptyString => EmptyString
  | String c r => String (lower_ascii c) (lower r)
  end.

(** [str.isspace] on the ASCII range: TAB..CR, FS..US and SPACE. *)
Definition isspace (c : ascii) : bool :=
  let n := nat_of_ascii c in
  (((9 <=? n) && (n <=? 13)) || ((28 <=? n) && (n <=? 32)))%nat.

Fixpoint lstrip (s : string) : string :=
  match s with
  | EmptyString => EmptyString
  | String c r => if isspace c then lstrip r else s
  end.

Fixpoint rstrip (s : string) : string :=
  match s with
  | EmptyString => EmptyString
  | String c r =>
      match rstrip r with
      | EmptyString => if isspace c then EmptyString else String c EmptyString
      | r' => String c r'
      end
  end.

(** [s.strip()] with no argument. *)
Definition strip (s : string) : string := rstrip (lstrip s).

(** [s.rstrip(ch)] for a single character [ch]. *)
Fixpoint rstrip_char (ch : ascii) (s : string) : string :=
  match s with
  | EmptyString => EmptyString
  | String c r =>
      match rstrip_char ch r with
      | EmptyString => if Ascii.eqb c ch then EmptyString else String c EmptyString
      | r' => String c r'
      end
  end.

Fixpoint rfind_from (ch : ascii) (s : string) (i acc : Z) : Z :=
  match s with
  | EmptyString => acc
  | String c r => rfind_from ch r (i + 1) (if Ascii.eqb c ch then i else acc)
  end.

(** [s.rfind(ch)]: index of the last occurrence, [-1] when there is none. *)
Definition rfind (ch : ascii) (s : string) : Z := rfind_from ch s 0 (-1).

(** The slices [s[:i]] and [s[i:]] for [0 <= i]. *)
Definition slice_to (i : Z) (s : string) : string :=
  String.substring 0 (Z.to_nat i) s.

Definition slice_from (i : Z) (s : string) : string :=
  String.substring (Z.to_nat i) (String.length s - Z.to_nat i) s.

(** Truth value of a [str]/[bytes] object. *)
Definition truthy (s : string) : bool :=
  match s with EmptyString => false | _ => true end.

Fixpoint all_char (ch : ascii) (s : string) : bool :=
  match s with
  | EmptyString => true
  | String c r => Ascii.eqb c ch && all_char ch r
  end.

Definition endswith (s suffix : string) : bool :=
  let n := String.length s in
  let m := String.length suffix in
  if (m <=? n)%nat then String.eqb (String.substring (n - m) m s) suffix
  else false.

(** [x in l] for a list of strings. *)
Definition contains (l : list string) (x : string) : bool :=
  existsb (String.eqb x) l.

(** [s.rsplit('.', 1)[1]]: the text after the last dot; [None] stands for
    the [IndexError] raised when [s] has no dot. *)
Definition rsplit_dot_1 (s : string) : option string :=
  let i := rfind "." s in
  if i <? 0 then None else Some (slice_from (i + 1) s).

(** [s.split(';', 1)[0]]: the text before the first semicolon. *)
Fixpoint split_semicolon_0 (s : string) : string :=
  match s with
  | EmptyString => EmptyString
  | String c r => if Ascii.eqb c ";" then EmptyString
                  else String c (split_semicolon_0 r)
  end.


Definition in_range (lo hi : nat) (c : ascii) : bool :=
  ((lo <=? nat_of_ascii c) && (nat_of_ascii c <=? hi))%nat.

(** Well-formed UTF-8, as the strict decoder accepts it: no overlong
    form, no surrogate, nothing above U+10FFFF. *)
Fixpoint utf8_valid (s : string) : bool :=
  match s with
  | EmptyString => true
  | String c r =>
      if in_range 0 127 c then utf8_valid r
      else if in_range 194 223 c then
        match r with
        | String c1 r1 => in_range 128 191 c1 && utf8_valid r1
        | _ => false
        end
      else if in_range 224 239 c then
        match r with
        | String c1 (String c2 r2) =>
            (if in_range 224 224 c then in_range 160 191 c1
             else if in_range 237 237 c then in_range 128 159 c1
             else in_range 128 191 c1)
            && in_range 128 191 c2 && utf8_valid r2
        | _ => false
        end
      else if in_range 240 244 c then
        match r with
        | String c1 (String c2 (String c3 r3)) =>
            (if in_range 240 240 c then in_range 144 191 c1
             else if in_range 244 244 c then in_range 128 143 c1
             else in_range 128 191 c1)
            && in_range 128 191 c2 && in_range 128 191 c3 && utf8_valid r3
        | _ => false
        end
      else false
  end.

(** [b.decode()]: [None] stands for the [UnicodeDecodeError]. *)
Definition decode (b : string) : option string :=
  if utf8_valid b then Some b else None.

End Py.

(** ** [os.path] (POSIX flavour) *)

Module OsPath.

(** The loop of [genericpath._splitext] that skips the leading dots of the
    last path component: it runs for [dotIndex - filenameIndex] rounds and
    splits at [dotIndex] as soon as it meets a character that is not a dot. *)
Fixpoint splitext_loop (p : string) (dotIndex : Z) (filenameIndex : Z)
    (rounds : nat) : option (string * string) :=
  match rounds with
  | O => None
  | S k =>
      match String.get (Z.to_nat filenameIndex) p with
      | Some c =>
          if Ascii.eqb c "." then splitext_loop p dotIndex (filenameIndex + 1) k
          else Some (Py.slice_to dotIndex p, Py.slice_from dotIndex p)
      | None => Some (Py.slice_to dotIndex p, Py.slice_from dotIndex p)
      end
  end.

Definition splitext (p : string) : string * string :=
  let sepIndex := Py.rfind "/" p in
  let dotIndex := Py.rfind "." p in
  if sepIndex <? dotIndex then
    let filenameIndex := sepIndex + 1 in
    match splitext_loop p dotIndex filenameIndex
            (Z.to_nat (dotIndex - filenameIndex)) with
    | Some r => r
    | None => (p, EmptyString)
    end
  else (p, EmptyString).

Definition dirname (p : string) : string :=
  let i := Py.rfind "/" p + 1 in
  let head := Py.slice_to i p in
  if Py.truthy head && negb (Py.all_char "/" head)
  then Py.rstrip_char "/" head else head.

(** [os.path.split]: the head is [dirname], the tail what follows the
    last separator. *)
Definition split (p : string) : string * string :=
  (dirname p, Py.slice_from (Py.rfind "/" p + 1) p).

End OsPath.

(** ** Exceptions, responses and the world *)

Inductive os_error : Type :=
  | FileExistsError
  | FileNotFoundError
  | IsADirectoryError
  | NotADirectoryError
  | PermissionError.

(** A [requests.Response], reduced to what the sources read or set.
    [content_length] is the ['content-length'] header as seen through
    [int(...)]: [None] when the header is absent, [Some None] when it is
    present but is no integer literal, [Some (Some n)] otherwise.
    [content] stands for both [resp.content] and the bytes of [resp.raw]. *)
Record Response : Type := {
  status_code : Z;
  content : string;
  encoding : option string;
  reason : string;
  is_dummy : bool;
  request : option string;
  content_length : option (option Z);
  content_type : option string
}.

Inductive exn : Type :=
  | AssertionError (msg : string)
  | IndexError
  | AttributeError (msg : string)
  | ValueError
  | UnicodeDecodeError
  | HTTPError (response : option Response) (req : option string)
  | ConnectionError
  | OSError (kind : os_error)
  | OtherException (name : string).

Inductive outcome (A : Type) : Type :=
  | Ret (a : A)
  | Raise (e : exn).
Arguments Ret {A} a.
Arguments Raise {A} e.

(** [Response.ok]: [raise_for_status] complains for 4xx and 5xx. *)
Definition ok (r : Response) : bool :=
  negb ((400 <=? status_code r) && (status_code r <? 600)).

(** [not resp] for a value that is [None] or a [Response]
    ([Response.__bool__] is [ok]). *)
Definition not_response (r : option Response) : bool :=
  match r with
  | None => true
  | Some resp => negb (ok resp)
  end.

Inductive thread_state : Type :=
  | Started
  | Finished
  | Died (e : exn).

Inductive Tag : Type :=
  | TagBase
  | AnchorTag
  | ScriptTag
  | ImgTag
  | LinkTag.

(** An asset element: the attributes of [URLTransformer] that the sources
    read ([url], [base_path], [file_path], [file_name], [default_fileext])
    and the two attributes of [LinkTag] ([contents], [files]). *)
Record Element : Type := {
  tag : Tag;
  url : string;
  base_url : option string;
  base_path : option string;
  file_path : string;
  file_name : string;
  default_fileext : option string;
  contents : string;
  files : nat
}.

(** The state the two modules share: the disk, the network behind
    [SESSION.get], the [config] dictionary, the table of [lru_cache], the
    clock and the threads that were started.  [fs_denied] holds the
    paths that the process may neither create nor open for writing.
    [robots_can_fetch] is the permission oracle of the design
    document. *)
Record World : Type := {
  fs_files : gmap string string;
  fs_dirs : gset string;
  fs_denied : gset string;
  SESSION_get : string -> outcome Response;
  robots_can_fetch : string -> bool;
  project_folder : string;
  over_write : bool;
  allowed_file_ext : list string;
  download_size : Z;
  is_allowed_cache : list (string * bool);
  utcnow : string;
  threads : list (Element * thread_state)
}.

Definition with_fs (f : gmap string string) (d : gset string) (w : World) : World :=
  {| fs_files := f; fs_dirs := d; fs_denied := fs_denied w;
     SESSION_get := SESSION_get w; robots_can_fetch := robots_can_fetch w;
     project_folder := project_folder w; over_write := over_write w;
     allowed_file_ext := allowed_file_ext w; download_size := download_size w;
     is_allowed_cache := is_allowed_cache w; utcnow := utcnow w;
     threads := threads w |}.

Definition with_download_size (n : Z) (w : World) : World :=
  {| fs_files := fs_files w; fs_dirs := fs_dirs w; fs_denied := fs_denied w;
     SESSION_get := SESSION_get w; robots_can_fetch := robots_can_fetch w;
     project_folder := project_folder w; over_write := over_write w;
     allowed_file_ext := allowed_file_ext w; download_size := n;
     is_allowed_cache := is_allowed_cache w; utcnow := utcnow w;
     threads := threads w |}.

Definition with_cache (c : list (string * bool)) (w : World) : World :=
  {| fs_files := fs_files w; fs_dirs := fs_dirs w; fs_denied := fs_denied w;
     SESSION_get := SESSION_get w; robots_can_fetch := robots_can_fetch w;
     project_folder := project_folder w; over_write := over_write w;
     allowed_file_ext := allowed_file_ext w; download_size := download_size w;
     is_allowed_cache := c; utcnow := utcnow w;
     threads := threads w |}.

Definition with_threads (t : list (Element * thread_state)) (w : World) : World :=
  {| fs_files := fs_files w; fs_dirs := fs_dirs w; fs_denied := fs_denied w;
     SESSION_get := SESSION_get w; robots_can_fetch := robots_can_fetch w;
     project_folder := project_folder w; over_write := over_write w;
     allowed_file_ext := allowed_file_ext w; download_size := download_size w;
     is_allowed_cache := is_allowed_cache w; utcnow := utcnow w;
     threads := t |}.

Definition with_oracle (f : string -> bool) (w : World) : World :=
  {| fs_files := fs_files w; fs_dirs := fs_dirs w; fs_denied := fs_denied w;
     SESSION_get := SESSION_get w; robots_can_fetch := f;
     project_folder := project_folder w; over_write := over_write w;
     allowed_file_ext := allowed_file_ext w; download_size := download_size w;
     is_allowed_cache := is_allowed_cache w; utcnow := utcnow w;
     threads := threads w |}.

Definition with_network (net : string -> outcome Response) (w : World) : World :=
  {| fs_files := fs_files w; fs_dirs := fs_dirs w; fs_denied := fs_denied w;
     SESSION_get := net; robots_can_fetch := robots_can_fetch w;
     project_folder := project_folder w; over_write := over_write w;
     allowed_file_ext := allowed_file_ext w; download_size := download_size w;
     is_allowed_cache := is_allowed_cache w; utcnow := utcnow w;
     threads := threads w |}.


(** ** The monad of effects *)

Definition M (A : Type) : Type := World -> outcome A * World.

Definition ret {A} (a : A) : M A := fun w => (Ret a, w).

Definition raise {A} (e : exn) : M A := fun w => (Raise e, w).

Definition bind {A B} (c : M A) (k : A -> M B) : M B :=
  fun w =>
    match c w with
    | (Ret a, w') => k a w'
    | (Raise e, w') => (Raise e, w')
    end.

(** [try: c  except <handles>: h]. *)
Definition try_except {A} (c : M A) (handles : exn -> bool) (h : exn -> M A) : M A :=
  fun w =>
    match c w with
    | (Ret a, w') => (Ret a, w')
    | (Raise e, w') => if handles e then h e w' else (Raise e, w')
    end.

Notation "'let!' x ':=' c 'in' k" := (bind c (fun x => k))
  (at level 10, x name, c at level 100, k at level 200).
Notation "'run!' c 'in' k" := (bind c (fun _ => k))
  (at level 10, c at level 100, k at level 200).

Definition is_OSError (e : exn) : bool :=
  match e with OSError _ => true | _ => false end.

Definition is_FileExistsError (e : exn) : bool :=
  match e with OSError FileExistsError => true | _ => false end.

(** [except Exception]: every exception of the model is one. *)
Definition is_Exception (e : exn) : bool := true.

(** ** pywebcopy.core: the fetcher *)

Definition dummy_payload : string :=
  "This File could not be downloaded because the server returned an error response!".

Definition _dummy_resp : Response :=
  {| status_code := 200;
     content := dummy_payload;
     encoding := Some "utf-8"%string;
     reason := "Failed to access";
     is_dummy := true;
     request := None;
     content_length := None;
     content_type := None |}.

Definition set_request (q : option string) (r : Response) : Response :=
  {| status_code := status_code r; content := content r;
     encoding := encoding r; reason := reason r; is_dummy := is_dummy r;
     request := q; content_length := content_length r;
     content_type := content_type r |}.

(** [get(url, stream=True)].  The [try] block holds the request and the
    update of [config['download_size']]; only [HTTPError] and
    [ConnectionError] are handled. *)
Definition get (url : string) : M Response :=
  fun w =>
    match SESSION_get w url with
    | Ret resp =>
        match content_length resp with
        | None => (Ret resp, w)
        | Some (Some n) => (Ret resp, with_download_size (download_size w + n) w)
        | Some None => (Raise ValueError, w)
        end
    | Raise (HTTPError r q) =>
        match r with
        | Some resp =>
            if not_response r then (Ret (set_request q _dummy_resp), w)
            else (Ret resp, w)
        | None => (Ret (set_request q _dummy_resp), w)
        end
    | Raise ConnectionError => (Ret _dummy_resp, w)
    | Raise e => (Raise e, w)
    end.

(** ** pywebcopy.core: the extension policy *)

(** The body of [is_allowed], for the allow-list [config['allowed_file_ext']]. *)
Definition is_allowed_body (allowed : list string) (ext : string) : bool :=
  if negb (Py.truthy ext) then false
  else if Py.contains allowed (Py.lower (Py.strip ext)) then true
  else false.

(** The table of [functools.lru_cache(maxsize=100)], most recently used
    entry first. *)
Definition lru_maxsize : nat := 100.

Fixpoint lru_find (k : string) (c : list (string * bool)) : option bool :=
  match c with
  | [] => None
  | (k', v) :: r => if String.eqb k k' then Some v else lru_find k r
  end.

Fixpoint lru_remove (k : string) (c : list (string * bool)) : list (string * bool) :=
  match c with
  | [] => []
  | (k', v) :: r => if String.eqb k k' then r else (k', v) :: lru_remove k r
  end.

(** A hit moves the entry to the front. *)
Definition lru_touch (k : string) (v : bool) (c : list (string * bool)) :=
  (k, v) :: lru_remove k c.

(** A miss stores the new entry; a full table first drops its least
    recently used entry. *)
Definition lru_store (k : string) (v : bool) (c : list (string * bool)) :=
  if (lru_maxsize <=? length c)%nat then (k, v) :: removelast c
  else (k, v) :: c.

(** [is_allowed(ext)] behind [@lru_cache(maxsize=100)]. *)
Definition is_allowed (ext : string) : M bool :=
  fun w =>
    match lru_find ext (is_allowed_cache w) with
    | Some v => (Ret v, with_cache (lru_touch ext v (is_allowed_cache w)) w)
    | None =>
        let v := is_allowed_body (allowed_file_ext w) ext in
        (Ret v, with_cache (lru_store ext v (is_allowed_cache w)) w)
    end.

(** ** The disk behind [os] and [open] *)

(** The root directory is always there. *)
Definition is_root (p : string) : bool := Py.truthy p && Py.all_char "/" p.

Definition os_path_isdir (p : string) (w : World) : bool :=
  is_root p || bool_decide (p ∈ fs_dirs w).

Definition os_path_exists (p : string) (w : World) : bool :=
  bool_decide (is_Some (fs_files w !! p)) || os_path_isdir p w.

(** The path is empty or ends with the separator. *)
Definition trailing_sep (p : string) : bool :=
  Py.rfind "/" p + 1 =? Z.of_nat (String.length p).

(** [os.mkdir(p)]: the directory above must be there, and [p] must be
    new and may not be among the paths the process is denied. *)
Definition os_mkdir (p : string) : M unit :=
  fun w =>
    if negb (Py.truthy p) then (Raise (OSError FileNotFoundError), w)
    else if os_path_exists p w then (Raise (OSError FileExistsError), w)
    else if Py.truthy (OsPath.dirname p)
            && bool_decide (is_Some (fs_files w !! OsPath.dirname p))
    then (Raise (OSError NotADirectoryError), w)
    else if Py.truthy (OsPath.dirname p)
            && negb (os_path_isdir (OsPath.dirname p) w)
    then (Raise (OSError FileNotFoundError), w)
    else if bool_decide (p ∈ fs_denied w) then (Raise (OSError PermissionError), w)
    else (Ret tt, with_fs (fs_files w) ({[p]} ∪ fs_dirs w) w).

(** [os.makedirs(name)] with [exist_ok=False]: the missing directories
    above [name] are made first, outermost first; a [FileExistsError]
    from that part is passed over, any other error ends the call.  The
    recursion goes to a strictly shorter name, so [String.length name]
    rounds are enough. *)
Fixpoint os_makedirs_rec (rounds : nat) (name : string) : M unit :=
  match rounds with
  | O => os_mkdir name
  | S k =>
      let ht :=
        if Py.truthy (snd (OsPath.split name)) then OsPath.split name
        else OsPath.split (fst (OsPath.split name)) in
      fun w =>
        if Py.truthy (fst ht) && Py.truthy (snd ht)
           && negb (os_path_exists (fst ht) w)
        then
          (run! try_except (os_makedirs_rec k (fst ht)) is_FileExistsError
                  (fun _ => ret tt) in
           if String.eqb (snd ht) "." then ret tt else os_mkdir name) w
        else os_mkdir name w
  end.

Definition os_makedirs (name : string) : M unit :=
  os_makedirs_rec (String.length name) name.

Definition os_remove (p : string) : M unit :=
  fun w =>
    match fs_files w !! p with
    | Some _ => (Ret tt, with_fs (delete p (fs_files w)) (fs_dirs w) w)
    | None =>
        if bool_decide (p ∈ fs_dirs w) then (Raise (OSError IsADirectoryError), w)
        else (Raise (OSError FileNotFoundError), w)
    end.

(** [open(p, 'wb')]: the file is created or truncated. *)
Definition open_wb (p : string) : M unit :=
  fun w =>
    if os_path_isdir p w || trailing_sep p
    then (Raise (OSError IsADirectoryError), w)
    else if Py.truthy (OsPath.dirname p)
            && negb (os_path_isdir (OsPath.dirname p) w)
    then (Raise (OSError FileNotFoundError), w)
    else if bool_decide (p ∈ fs_denied w) then (Raise (OSError PermissionError), w)
    else (Ret tt, with_fs (<[p := EmptyString]> (fs_files w)) (fs_dirs w) w).

(** [f.write(b)] on the file opened at [p]. *)
Definition f_write (p : string) (b : string) : M unit :=
  fun w =>
    (Ret tt,
     with_fs (<[p := (default EmptyString (fs_files w !! p) ++ b)%string]> (fs_files w))
             (fs_dirs w) w).

(** A regular-expression match object ([group(0)] is the matched text,
    [group(1)] the captured URL) and the way a compiled pattern cuts a
    buffer into unmatched text and matches, from left to right. *)
Record Match : Type := { group0 : string; group1 : string }.

Inductive Segment : Type :=
  | Text (s : string)
  | Matched (m : Match).

(** What the two modules import from the rest of the package and from the
    standard library, kept abstract: the template [MARK] with its [format]
    method and [VERSION] (pywebcopy.globals, pywebcopy), the attributes that
    [URLTransformer] computes and [relate] (pywebcopy.urls), the scanners
    behind [CSS_URLS_RE] and [CSS_IMPORTS_RE] (pywebcopy.globals),
    [mimetypes.guess_all_extensions] and [urllib.request.pathname2url]. *)
Class Package : Type := {
  MARK_format : string -> string -> string -> string -> string -> string;
  VERSION : string;
  URLTransformer_url : string -> option string -> option string -> string;
  URLTransformer_file_path : string -> option string -> option string -> string;
  URLTransformer_file_name : string -> option string -> option string -> string;
  URLTransformer_default_fileext : option string;
  relate : string -> string -> string;
  pathname2url : string -> string;
  guess_all_extensions : string -> list string;
  CSS_URLS_RE : string -> list Segment;
  CSS_IMPORTS_RE : string -> list Segment
}.

Section Engine.

Context `{Package}.

(** ** pywebcopy.core: the watermark *)

Definition markup_exts : list string :=
  [".html"; ".htm"; ".xhtml"; ".aspx"; ".asp"; ".php"]%string.

Definition block_exts : list string := [".css"; ".js"; ".xml"]%string.

(** [_watermark(file_path)], at the time [now] of [datetime.utcnow()]. *)
Definition watermark_at (now : string) (file_path : string) : string :=
  let file_type := snd (OsPath.splitext file_path) in
  if Py.contains markup_exts (Py.lower file_type)
  then MARK_format "<!--!" VERSION file_path now "-->"
  else if Py.contains block_exts (Py.lower file_type)
  then MARK_format "/*!" VERSION file_path now "*/"
  else EmptyString.

Definition _watermark (file_path : string) : M string :=
  fun w => (Ret (watermark_at (utcnow w) file_path), w).

(** ** pywebcopy.core: the writer *)

Definition opt_truthy (o : option string) : bool :=
  match o with
  | Some s => Py.truthy s
  | None => false
  end.

(** [content_url or location], for a [content_url] that is a [str]. *)
Definition or_location (content_url location : string) : string :=
  if Py.truthy content_url then content_url else location.

(** The last two [try] blocks of [new_file]: make the directory, then write
    [body] and the watermark. *)
Definition new_file_write (location content_url : string)
    (body : M string) : M (option string) :=
  let! made :=
    try_except
      (fun w =>
         if negb (os_path_exists (OsPath.dirname location) w)
         then (run! os_makedirs (OsPath.dirname location) in ret true) w
         else (Ret true, w))
      is_OSError (fun _ => ret false) in
  if negb made then ret None
  else
    try_except
      (run! open_wb location in
       let! b := body in
       run! f_write location b in
       let! m := _watermark (or_location content_url location) in
       run! f_write location m in
       ret (Some location))
      is_Exception (fun _ => ret None).

(** The part of [new_file] after the overwrite check: the content is
    [supplied] or fetched from [content_url], then written. *)
Definition new_file_content (location content_url : string)
    (supplied : option string) : M (option string) :=
  if negb (opt_truthy supplied)
  then
    let! req := get content_url in
    if negb (ok req) then ret None
    else new_file_write location content_url (ret (content req))
  else
    new_file_write location content_url
      (match supplied with
       | Some b => ret b
       | None => raise (OtherException "TypeError")
       end).

(** [new_file(location, content_url, content)]; the result [None] is
    Python's [None], [Some p] the returned location. *)
Definition new_file (location : string) (content_url content : option string)
    : M (option string) :=
  if negb (Py.truthy location)
  then raise (AssertionError "Download location needed to be specified!")
  else if negb (opt_truthy content || opt_truthy content_url)
  then raise (AssertionError "Either file content or file url is needed!")
  else
    match content_url with
    | None => raise (AssertionError "File url must be a string!")
    | Some cu =>
        match Py.rsplit_dot_1 location with
        | None => raise IndexError
        | Some tail =>
            let _file_ext := ("." ++ Py.strip (Py.lower tail))%string in
            let! allowed := is_allowed _file_ext in
            if negb allowed then ret None
            else
              fun w =>
                if os_path_exists location w then
                  if negb (over_write w) then (Ret (Some location), w)
                  else (run! os_remove location in
                        new_file_content location cu content) w
                else new_file_content location cu content w
        end
    end.

(** ** pywebcopy.elements: files *)

(** The directory step shared by [download_file] and [write_file]; the
    result tells whether the caller goes on. *)
Definition prepare_location (file_path : string) : M bool :=
  fun w =>
    if os_path_exists file_path w then
      if negb (over_write w) then (Ret false, w) else (Ret true, w)
    else
      try_except
        (run! os_makedirs (OsPath.dirname file_path) in ret true)
        is_FileExistsError (fun _ => ret true) w.

(** The [with open(...)] block of [download_file] and [write_file], with
    its two [except] clauses, both of which only log. *)
Definition write_with_watermark (file_path url body : string) : M unit :=
  try_except
    (try_except
       (run! open_wb file_path in
        run! f_write file_path body in
        let! m := _watermark url in
        f_write file_path m)
       is_OSError (fun _ => ret tt))
    is_Exception (fun _ => ret tt).

(** The [for ext in file_exts: if is_allowed(ext): ... break] loop; [None]
    is its [else] branch. *)
Fixpoint first_allowed (file_exts : list string) : M (option string) :=
  match file_exts with
  | [] => ret None
  | ext :: rest =>
      let! a := is_allowed ext in
      if a then ret (Some ext) else first_allowed rest
  end.

(** [FileMixin.download_file]. *)
Definition download_file (self : Element) : M unit :=
  let file_ext := snd (OsPath.splitext (file_path self)) in
  if negb (Py.truthy (file_path self))
  then raise (AssertionError "Download location needed to be specified!")
  else
    let! go := prepare_location (file_path self) in
    if negb go then ret tt
    else
      let! req := get (url self) in
      if negb (ok req) then ret tt
      else
        let! allowed := is_allowed file_ext in
        let! proceed :=
          (if negb allowed then
             let mime_type :=
               Py.split_semicolon_0 (default EmptyString (content_type req)) in
             let file_exts := guess_all_extensions mime_type in
             if opt_truthy (default_fileext self)
             then raise (AttributeError "'list' object has no attribute 'extends'")
             else
               let! found := first_allowed file_exts in
               ret (bool_decide (is_Some found))
           else ret true) in
        if negb proceed then ret tt
        else write_with_watermark (file_path self) (url self) (content req).

(** [FileMixin.write_file], for a file-like object holding [body]. *)
Definition write_file (self : Element) (body : string) : M unit :=
  let file_ext := snd (OsPath.splitext (file_path self)) in
  if negb (Py.truthy (file_path self))
  then raise (AssertionError "Download location needed to be specified!")
  else
    let! go := prepare_location (file_path self) in
    if negb go then ret tt
    else
      let! allowed := is_allowed file_ext in
      if negb allowed then ret tt
      else write_with_watermark (file_path self) (url self) body.

(** ** pywebcopy.elements: stylesheets *)

(** [LinkTag(url, base_url, base_path)] and [TagBase(url, base_url,
    base_path)]: the constructors only run [URLTransformer.__init__] and
    [Thread.__init__]. *)
Definition new_element (t : Tag) (u : string) (b_url b_path : option string)
    : Element :=
  {| tag := t; url := URLTransformer_url u b_url b_path;
     base_url := b_url; base_path := b_path;
     file_path := URLTransformer_file_path u b_url b_path;
     file_name := URLTransformer_file_name u b_url b_path;
     default_fileext := URLTransformer_default_fileext;
     contents := EmptyString; files := 0 |}.

(** [Thread.start()], as the calling thread sees it: the thread is
    registered and the call returns at once.  What the started thread
    does, and when, is no part of the caller's computation. *)
Definition start (e : Element) : M unit :=
  fun w => (Ret tt, with_threads (threads w ++ [(e, Started)]) w).

Definition set_files (n : nat) (e : Element) : Element :=
  {| tag := tag e; url := url e; base_url := base_url e;
     base_path := base_path e; file_path := file_path e;
     file_name := file_name e; default_fileext := default_fileext e;
     contents := contents e; files := n |}.

Definition set_contents (c : string) (e : Element) : Element :=
  {| tag := tag e; url := url e; base_url := base_url e;
     base_path := base_path e; file_path := file_path e;
     file_name := file_name e; default_fileext := default_fileext e;
     contents := c; files := files e |}.

(** [LinkTag.repl(match_obj)]: the replacement text, and [self] with its
    counter updated. *)
Definition repl (self : Element) (match_obj : Match) : M (string * Element) :=
  let u := group1 match_obj in
  if String.eqb (Py.slice_to 4 u) "data" then ret (u, self)
  else
    fun w =>
      let b_path :=
        if opt_truthy (base_path self) then default EmptyString (base_path self)
        else project_folder w in
      match Py.decode u with
      | None => (Raise UnicodeDecodeError, w)
      | Some str_url =>
          let child :=
            if Py.endswith str_url ".css"
            then new_element LinkTag str_url (Some (url self)) (Some b_path)
            else new_element TagBase str_url (Some (url self)) (Some b_path) in
          (run! start child in
           let self' := set_files (files self + 1) self in
           let rel := pathname2url (relate (file_path child) (file_path self')) in
           ret (("url(" ++ rel ++ ")")%string, self')) w
      end.

(** The directory that [repl] hands to the child. *)
Definition child_base_path (self : Element) (w : World) : string :=
  if opt_truthy (base_path self) then default EmptyString (base_path self)
  else project_folder w.

(** The child that [repl] creates for the URL [u]. *)
Definition child_of (self : Element) (u : string) (w : World) : Element :=
  new_element (if Py.endswith u ".css" then LinkTag else TagBase)
    u (Some (url self)) (Some (child_base_path self w)).

(** The text that takes the place of one segment of a scanned buffer:
    unmatched text stays, a match becomes what [repl] returns for it. *)
Definition segment_text (self : Element) (w : World) (seg : Segment) : string :=
  match seg with
  | Text s => s
  | Matched m =>
      if String.eqb (Py.slice_to 4 (group1 m)) "data" then group1 m
      else ("url(" ++ pathname2url
                        (relate (file_path (child_of self (group1 m) w))
                                (file_path self)) ++ ")")%string
  end.

(** The buffer that one [sub] pass leaves. *)
Definition rewrite_pass (self : Element) (w : World) (segs : list Segment)
    : string :=
  fold_right (fun seg rest => (segment_text self w seg ++ rest)%string)
    EmptyString segs.

(** The children that one [sub] pass starts, in order. *)
Fixpoint children (self : Element) (w : World) (segs : list Segment)
    : list Element :=
  match segs with
  | [] => []
  | Text _ :: rest => children self w rest
  | Matched m :: rest =>
      if String.eqb (Py.slice_to 4 (group1 m)) "data" then children self w rest
      else child_of self (group1 m) w :: children self w rest
  end.

(** Every reference that a pass rewrites is well-formed UTF-8, so that
    [url.decode()] raises for none of them. *)
Fixpoint decodable (segs : list Segment) : bool :=
  match segs with
  | [] => true
  | Text _ :: rest => decodable rest
  | Matched m :: rest =>
      (String.eqb (Py.slice_to 4 (group1 m)) "data"
       || bool_decide (is_Some (Py.decode (group1 m))))
      && decodable rest
  end.

(** [pattern.sub(self.repl, buffer)] over the segments of the buffer. *)
Fixpoint re_sub (self : Element) (segs : list Segment) : M (string * Element) :=
  match segs with
  | [] => ret (EmptyString, self)
  | Text s :: rest =>
      let! r := re_sub self rest in
      ret ((s ++ fst r)%string, snd r)
  | Matched m :: rest =>
      let! r1 := repl self m in
      let! r2 := re_sub (snd r1) rest in
      ret ((fst r1 ++ fst r2)%string, snd r2)
  end.

(** [LinkTag.run]; the result is [self] as the method leaves it. *)
Definition LinkTag_run (self : Element) : M Element :=
  run! (if negb (Py.endswith (file_name self) ".css")
        then download_file self else ret tt) in
  let! req := get (url self) in
  if negb (ok req) then ret self
  else
    let self1 := set_contents (content req) self in
    let! r1 := re_sub self1 (CSS_URLS_RE (contents self1)) in
    let self2 := set_contents (fst r1) (snd r1) in
    let! r2 := re_sub self2 (CSS_IMPORTS_RE (contents self2)) in
    let self3 := set_contents (fst r2) (snd r2) in
    run! write_file self3 (contents self3) in
    ret self3.

(** [run] as each class resolves it. *)
Definition run (self : Element) : M Element :=
  match tag self with
  | AnchorTag => ret self
  | LinkTag => LinkTag_run self
  | TagBase | ScriptTag | ImgTag => run! download_file self in ret self
  end.


End Engine.

(** ** Worked scenarios *)

Module Scenario.

(** Stand-ins for the imports, used by the worked examples only. *)
Definition imports : Package :=
  {| MARK_format := fun comment_start version file_path now comment_end =>
       (comment_start ++ " pywebcopy " ++ version ++ " mirrored from "
          ++ file_path ++ " at " ++ now ++ " " ++ comment_end)%string;
     VERSION := "5.0";
     URLTransformer_url := fun u _ _ => ("http://h/" ++ u)%string;
     URLTransformer_file_path := fun u _ b_path =>
       (default EmptyString b_path ++ "/" ++ u)%string;
     URLTransformer_file_name := fun u _ _ => u;
     URLTransformer_default_fileext := None;
     relate := fun child _ => child;
     pathname2url := fun p => p;
     guess_all_extensions := fun mime =>
       if String.eqb mime "image/png" then [".png"%string] else [];
     CSS_URLS_RE := fun s => [Text s];
     CSS_IMPORTS_RE := fun s => [Text s] |}.

Definition response (status : Z) (body : string) (ctype : option string)
    : Response :=
  {| status_code := status; content := body; encoding := None;
     reason := EmptyString; is_dummy := false; request := None;
     content_length := None; content_type := ctype |}.

(** An empty disk, overwriting disabled, a network that answers every
    request with [answer]. *)
Definition world (answer : outcome Response) (allowed : list string) : World :=
  {| fs_files := ∅; fs_dirs := ∅; fs_denied := ∅;
     SESSION_get := fun _ => answer;
     robots_can_fetch := fun _ => true;
     project_folder := "site";
     over_write := false;
     allowed_file_ext := allowed;
     download_size := 0;
     is_allowed_cache := [];
     utcnow := "2019-01-01 00:00:00";
     threads := [] |}.

Definition with_over_write (b : bool) (w : World) : World :=
  {| fs_files := fs_files w; fs_dirs := fs_dirs w; fs_denied := fs_denied w;
     SESSION_get := SESSION_get w; robots_can_fetch := robots_can_fetch w;
     project_folder := project_folder w; over_write := b;
     allowed_file_ext := allowed_file_ext w; download_size := download_size w;
     is_allowed_cache := is_allowed_cache w; utcnow := utcnow w;
     threads := threads w |}.

Definition element (t : Tag) (u path : string) (ext : option string) : Element :=
  {| tag := t; url := u; base_url := None; base_path := Some "site"%string;
     file_path := path; file_name := path; default_fileext := ext;
     contents := EmptyString; files := 0 |}.

Definition offline : World := world (Raise ConnectionError) [".png"; ".css"]%string.

Definition not_found : World :=
  world (Ret (response 404 "Not Found" None)) [".png"; ".css"]%string.

Definition page : Response := response 200 "<html></html>" (Some "text/html"%string).

Definition online : World := world (Ret page) [".html"; ".css"; ".png"]%string.

(** The same, with two files already on the disk. *)
Definition mirrored : World :=
  with_fs (<["site/a.css"%string := "old"%string]>
             (<["site/a.exe"%string := "MZ"%string]> ∅))
          {["site"%string]} online.

Definition logo_match : Match :=
  {| group0 := "url(img/logo.png)"; group1 := "img/logo.png" |}.




Definition parent : Element :=
  element LinkTag "http://h/s.css" "site/s.css" None.

Definition logo : Element :=
  element TagBase "http://h/a.png" "site/img/a.png" None.

Definition picture : Element :=
  element ImgTag "http://h/pic" "site/pic" (Some "jpg"%string).

(** A server that answers every request with 404, over the disk of
    [mirrored], overwriting enabled. *)
Definition mirrored_gone : World :=
  with_network (fun _ => Ret (response 404 "Not Found" None))
    (with_over_write true mirrored).


(** The disk of a site whose folder name is taken by a regular file. *)
Definition blocked : World :=
  with_fs (<["site"%string := "x"%string]> ∅) ∅ online.

Definition old_stylesheet : Element :=
  element TagBase "http://h/a.css" "site/a.css" None.

Definition bare : Element := element TagBase "http://h/a.png" "a.png" None.

Definition program : Element :=
  element TagBase "http://h/a.exe" "site/a.exe" None.

(** An image served without an extension in its URL. *)
Definition image : Response :=
  response 200 "PNG" (Some "image/png; charset=binary"%string).

Definition serving_image : World :=
  world (Ret image) [".html"; ".css"; ".png"]%string.

Definition extensionless : Element :=
  element TagBase "http://h/pic" "site/pic" None.

(** A favicon of three bytes, with its length declared. *)
Definition icon : Response :=
  {| status_code := 200; content := "ICO"; encoding := None;
     reason := EmptyString; is_dummy := false; request := None;
     content_length := Some (Some 3); content_type := Some "image/png"%string |}.

Definition serving_icon : World :=
  world (Ret icon) [".html"; ".css"; ".png"]%string.

Definition favicon : Element :=
  element LinkTag "http://h/favicon.png" "site/favicon.png" None.

End Scenario.

(** ** Predicates used in the statements *)

(** The request failed at transport level: [SESSION.get] raised an
    [HTTPError] or a [ConnectionError]. *)
Definition transport_failure (o : outcome Response) : Prop :=
  (exists r q, o = Raise (HTTPError r q)) \/ o = Raise ConnectionError.

(** Every stored answer is the one the body gives for the present
    allow-list: the table was filled under this configuration. *)
Definition cache_sound (w : World) : Prop :=
  forall k v, lru_find k (is_allowed_cache w) = Some v ->
              v = is_allowed_body (allowed_file_ext w) k.

Definition cache_bounded (w : World) : Prop :=
  (length (is_allowed_cache w) <= lru_maxsize)%nat.

(** The conditions under which [open(p, 'wb')] succeeds. *)
Definition can_open (p : string) (w : World) : Prop :=
  os_path_isdir p w = false /\ trailing_sep p = false /\
  os_path_isdir (OsPath.dirname p) w = true /\ p ∉ fs_denied w.

(** The directory of [fp] is there and [os.makedirs] finds it so, or
    [os.makedirs] makes it for a file that does not exist yet. *)
Definition directory_ready (fp : string) (w : World) : Prop :=
  Py.truthy (OsPath.dirname fp) = true /\
  ((os_path_isdir (OsPath.dirname fp) w = true /\
    os_makedirs (OsPath.dirname fp) w = (Raise (OSError FileExistsError), w)) \/
   (fs_files w !! fp = None /\
    os_path_exists (OsPath.dirname fp) w = false /\
    fst (os_makedirs (OsPath.dirname fp) w) = Ret tt /\
    os_path_isdir (OsPath.dirname fp) (snd (os_makedirs (OsPath.dirname fp) w))
      = true)).

(** The file at [fp] may be written: it is absent, or overwriting is on;
    it is no directory, its name may be opened and its directory is
    ready. *)
Definition may_write (fp : string) (w : World) : Prop :=
  (is_Some (fs_files w !! fp) -> over_write w = true) /\
  os_path_isdir fp w = false /\ trailing_sep fp = false /\
  (fp ∉ fs_denied w) /\ directory_ready fp w.


(** Nothing is stored under the empty path. *)
Definition disk_sane (w : World) : Prop :=
  fs_files w !! EmptyString = None /\ EmptyString ∉ fs_dirs w.


(** * Properties *)

(** ** The fetcher *)

Lemma get_ConnectionError (u : string) (w : World) :
  SESSION_get w u = Raise ConnectionError -> get u w = (Ret _dummy_resp, w).
Proof. intros E. unfold get. rewrite E. reflexivity. Qed.

Lemma get_HTTPError (u : string) (w : World) r q :
  SESSION_get w u = Raise (HTTPError r q) ->
  get u w =
    (Ret (if not_response r then set_request q _dummy_resp
          else default _dummy_resp r), w).
Proof.
  intros E. unfold get. rewrite E.
  destruct r as [resp|]; simpl; [destruct (ok resp)|]; reflexivity.
Qed.

Lemma get_returned (u : string) (w : World) resp :
  SESSION_get w u = Ret resp -> content_length resp = None ->
  get u w = (Ret resp, w).
Proof. intros E L. unfold get. rewrite E, L. reflexivity. Qed.

(** Any other exception of [SESSION.get] (a read timeout, too many
    redirects, an invalid URL) passes through [get]. *)
Lemma get_other_exception (u : string) (w : World) (name : string) :
  SESSION_get w u = Raise (OtherException name) ->
  get u w = (Raise (OtherException name), w).
Proof. intros E. unfold get. rewrite E. reflexivity. Qed.

(** C1: when the request fails at transport level, [get] raises nothing
    and returns a [Response], leaving the world as it was; after a
    connection failure, and after an HTTP error that carries no usable
    response, that [Response] is the placeholder: status 200, the fixed
    payload, and the mark [is_dummy]. *)
Theorem C1_get_never_propagates_transport_failure (u : string) (w : World) :
  transport_failure (SESSION_get w u) ->
  exists resp : Response,
    get u w = (Ret resp, w) /\
    (SESSION_get w u = Raise ConnectionError ->
       resp = _dummy_resp /\ content resp = dummy_payload /\
       is_dummy resp = true /\ ok resp = true) /\
    (forall r q, SESSION_get w u = Raise (HTTPError r q) ->
       not_response r = true ->
       content resp = dummy_payload /\ is_dummy resp = true /\
       request resp = q).
Proof.
  intros [(r & q & E) | E].
  - rewrite (get_HTTPError u w r q E). eexists. split; [reflexivity|].
    split.
    + intros E'. congruence.
    + intros r' q' E' Hn. rewrite E in E'. injection E' as <- <-.
      rewrite Hn. repeat split.
  - rewrite (get_ConnectionError u w E). eexists. split; [reflexivity|].
    split.
    + intros _. repeat split.
    + intros r q E'. congruence.
Qed.

Lemma C1_get_offline :
  transport_failure (SESSION_get Scenario.offline "http://h/a.png") /\
  exists resp : Response,
    get "http://h/a.png" Scenario.offline = (Ret resp, Scenario.offline) /\
    (SESSION_get Scenario.offline "http://h/a.png" = Raise ConnectionError ->
       resp = _dummy_resp /\ content resp = dummy_payload /\
       is_dummy resp = true /\ ok resp = true) /\
    (forall r q,
       SESSION_get Scenario.offline "http://h/a.png" = Raise (HTTPError r q) ->
       not_response r = true ->
       content resp = dummy_payload /\ is_dummy resp = true /\
       request resp = q).
Proof.
  assert (F : transport_failure (SESSION_get Scenario.offline "http://h/a.png"))
    by (right; reflexivity).
  split; [exact F|].
  exact (C1_get_never_propagates_transport_failure "http://h/a.png"
           Scenario.offline F).
Defined.

(** [get] never reads the permission oracle. *)
Lemma get_ignores_oracle (u : string) (w : World) (oracle : string -> bool) :
  fst (get u (with_oracle oracle w)) = fst (get u w).
Proof.
  unfold get. simpl.
  destruct (SESSION_get w u) as [resp|e].
  - destruct (content_length resp) as [[n|]|]; reflexivity.
  - destruct e; try reflexivity.
    destruct response as [resp|]; simpl; [destruct (ok resp)|]; reflexivity.
Qed.

(** C4: on a URL that the permission oracle denies, [get] still issues
    the request and hands back the server's own response, which is not
    the placeholder that a connection failure yields. *)
Theorem C4_get_fetches_denied_url :
  let w := with_oracle (fun _ => false) Scenario.online in
  robots_can_fetch w "http://h/private" = false /\
  fst (get "http://h/private" w) = Ret Scenario.page /\
  is_dummy Scenario.page = false /\
  fst (get "http://h/private" w) <> fst (get "http://h/private" Scenario.offline).
Proof.
  simpl. repeat split. discriminate.
Qed.

(** ** The extension policy *)

Lemma contains_In (l : list string) (x : string) :
  Py.contains l x = true <-> In x l.
Proof.
  unfold Py.contains. rewrite existsb_exists. split.
  - intros (y & Hy & E). apply String.eqb_eq in E. subst. exact Hy.
  - intros Hx. exists x. split; [exact Hx | apply String.eqb_refl].
Qed.


Lemma lru_find_remove_ne (k k' : string) (c : list (string * bool)) :
  k <> k' -> lru_find k (lru_remove k' c) = lru_find k c.
Proof.
  intros Hne. induction c as [|[a v] r IH]; simpl; [reflexivity|].
  destruct (String.eqb k' a) eqn:E1.
  - apply String.eqb_eq in E1. subst a.
    destruct (String.eqb k k') eqn:E2; [|reflexivity].
    apply String.eqb_eq in E2. contradiction.
  - simpl. destruct (String.eqb k a); [reflexivity | exact IH].
Qed.

Lemma lru_remove_length (k : string) (c : list (string * bool)) (v : bool) :
  lru_find k c = Some v -> S (length (lru_remove k c)) = length c.
Proof.
  induction c as [|[a b] r IH]; simpl; [discriminate|].
  destruct (String.eqb k a); [reflexivity|].
  intros E. simpl. f_equal. exact (IH E).
Qed.

Lemma lru_find_removelast (k : string) (c : list (string * bool)) (v : bool) :
  lru_find k (removelast c) = Some v -> lru_find k c = Some v.
Proof.
  induction c as [|[a b] r IH]; simpl; [discriminate|].
  destruct r as [|p r']; [discriminate|].
  simpl. destruct (String.eqb k a); [tauto|]. exact IH.
Qed.

Lemma removelast_length {A} (l : list A) :
  l <> [] -> S (length (removelast l)) = length l.
Proof.
  induction l as [|a r IH]; [congruence|]. intros _.
  destruct r as [|b r']; [reflexivity|].
  change (removelast (a :: b :: r')) with (a :: removelast (b :: r')).
  simpl length. f_equal. apply IH. discriminate.
Qed.

Lemma lru_touch_length (k : string) (v : bool) (c : list (string * bool)) :
  lru_find k c = Some v -> length (lru_touch k v c) = length c.
Proof. intros E. unfold lru_touch. simpl. exact (lru_remove_length k c v E). Qed.

Lemma lru_store_length (k : string) (v : bool) (c : list (string * bool)) :
  (length c <= lru_maxsize)%nat -> (length (lru_store k v c) <= lru_maxsize)%nat.
Proof.
  intros Hb. unfold lru_store.
  destruct (lru_maxsize <=? length c)%nat eqn:E.
  - apply Nat.leb_le in E. simpl.
    rewrite removelast_length; [exact Hb|].
    intros ->. unfold lru_maxsize in E. simpl in E. lia.
  - apply Nat.leb_gt in E. simpl. lia.
Qed.

(** A call of [is_allowed] under a sound table: the answer is the body's,
    it is stored, and the table stays sound and bounded. *)
Lemma is_allowed_sound (ext : string) (w : World) :
  cache_sound w ->
  exists c,
    is_allowed ext w
      = (Ret (is_allowed_body (allowed_file_ext w) ext), with_cache c w) /\
    lru_find ext c = Some (is_allowed_body (allowed_file_ext w) ext) /\
    cache_sound (with_cache c w) /\
    (cache_bounded w -> cache_bounded (with_cache c w)).
Proof.
  intros Hs. unfold is_allowed.
  destruct (lru_find ext (is_allowed_cache w)) as [v|] eqn:E.
  - pose proof (Hs ext v E) as Hv. subst v.
    eexists. split; [reflexivity|]. split; [|split].
    + unfold lru_touch. simpl. rewrite String.eqb_refl. reflexivity.
    + intros k v. unfold lru_touch. simpl.
      destruct (String.eqb k ext) eqn:Ek.
      * apply String.eqb_eq in Ek. subst k. congruence.
      * apply String.eqb_neq in Ek. rewrite lru_find_remove_ne by exact Ek.
        apply Hs.
    + unfold cache_bounded. cbn [is_allowed_cache with_cache].
      rewrite (lru_touch_length _ _ _ E). tauto.
  - eexists. split; [reflexivity|]. split; [|split].
    + unfold lru_store.
      destruct (lru_maxsize <=? length (is_allowed_cache w))%nat; simpl;
        rewrite String.eqb_refl; reflexivity.
    + intros k v. unfold lru_store. cbn [is_allowed_cache with_cache allowed_file_ext].
      destruct (lru_maxsize <=? length (is_allowed_cache w))%nat;
        cbn [lru_find];
        (destruct (String.eqb k ext) eqn:Ek;
         [apply String.eqb_eq in Ek; subst k; congruence|]).
      * intros F. apply lru_find_removelast in F. exact (Hs k v F).
      * apply Hs.
    + unfold cache_bounded. cbn [is_allowed_cache with_cache].
      apply lru_store_length.
Qed.


Lemma cache_sound_empty (w : World) : is_allowed_cache w = [] -> cache_sound w.
Proof. intros E k v. rewrite E. discriminate. Qed.




Section Properties.

Context `{Package}.

(** ** Paths *)

Lemma rfind_from_bounds (ch : ascii) (s : string) (i acc : Z) :
  acc < i ->
  Py.rfind_from ch s i acc = acc \/
  (i <= Py.rfind_from ch s i acc < i + Z.of_nat (String.length s)).
Proof.
  revert i acc. induction s as [|c r IH]; intros i acc Hlt; simpl String.length.
  - left. reflexivity.
  - cbn [Py.rfind_from]. destruct (Ascii.eqb c ch).
    + destruct (IH (i + 1) i) as [E | B]; [lia | rewrite E | ]; right; lia.
    + destruct (IH (i + 1) acc) as [E | B]; [lia | left; exact E | right; lia].
Qed.

Lemma rfind_bounds (ch : ascii) (s : string) :
  -1 <= Py.rfind ch s < Z.of_nat (String.length s).
Proof.
  unfold Py.rfind.
  destruct (rfind_from_bounds ch s 0 (-1)) as [E | B]; [lia | rewrite E | ]; lia.
Qed.

Lemma substring_0_length (n : nat) (s : string) :
  (String.length (String.substring 0 n s) <= n)%nat /\
  (String.length (String.substring 0 n s) <= String.length s)%nat.
Proof.
  revert s. induction n as [|n IH]; intros [|c r]; simpl; try lia.
  destruct (IH r). lia.
Qed.

Lemma rstrip_char_length (ch : ascii) (s : string) :
  (String.length (Py.rstrip_char ch s) <= String.length s)%nat.
Proof.
  induction s as [|c r IH]; simpl; [lia|].
  destruct (Py.rstrip_char ch r) as [|c' r'].
  - destruct (Ascii.eqb c ch); simpl; lia.
  - simpl in *. lia.
Qed.

Lemma dirname_length (p : string) :
  (String.length (OsPath.dirname p) <= Z.to_nat (Py.rfind "/" p + 1))%nat.
Proof.
  unfold OsPath.dirname, Py.slice_to.
  pose proof (substring_0_length (Z.to_nat (Py.rfind "/" p + 1)) p) as [L _].
  destruct (_ && _); [|exact L].
  etransitivity; [apply rstrip_char_length | exact L].
Qed.

Lemma dirname_le (p : string) :
  (String.length (OsPath.dirname p) <= String.length p)%nat.
Proof.
  pose proof (dirname_length p). pose proof (rfind_bounds "/" p). lia.
Qed.

(** The directory of a path that does not end with the separator is
    strictly shorter than the path. *)
Lemma dirname_shorter (p : string) :
  trailing_sep p = false ->
  (String.length (OsPath.dirname p) < String.length p)%nat.
Proof.
  unfold trailing_sep. intros Ht. apply Z.eqb_neq in Ht.
  pose proof (dirname_length p). pose proof (rfind_bounds "/" p). lia.
Qed.

(** ** The disk *)

Lemma os_mkdir_cases (p : string) (w : World) :
  (exists e, os_mkdir p w = (Raise (OSError e), w)) \/
  os_mkdir p w = (Ret tt, with_fs (fs_files w) ({[p]} ∪ fs_dirs w) w).
Proof.
  unfold os_mkdir.
  destruct (negb (Py.truthy p)); [left; eexists; reflexivity|].
  destruct (os_path_exists p w); [left; eexists; reflexivity|].
  destruct (Py.truthy (OsPath.dirname p) && bool_decide _);
    [left; eexists; reflexivity|].
  destruct (Py.truthy (OsPath.dirname p) && negb _);
    [left; eexists; reflexivity|].
  destruct (bool_decide (p ∈ fs_denied w)); [left; eexists; reflexivity|].
  right. reflexivity.
Qed.

Lemma split_head_le (name : string) :
  let ht :=
    if Py.truthy (snd (OsPath.split name)) then OsPath.split name
    else OsPath.split (fst (OsPath.split name)) in
  (String.length (fst ht) <= String.length name)%nat.
Proof.
  cbv zeta. unfold OsPath.split. cbn [fst snd].
  destruct (Py.truthy _); cbn [fst].
  - apply dirname_le.
  - etransitivity; apply dirname_le.
Qed.

(** What [os.makedirs] does to the world, whether it succeeds or raises:
    it raises nothing but [OSError], leaves the files alone, and every
    directory it adds is no longer than [name]. *)
Lemma os_makedirs_rec_frame (rounds : nat) (name : string) (w : World) :
  exists o dirs,
    os_makedirs_rec rounds name w = (o, with_fs (fs_files w) dirs w) /\
    (o = Ret tt \/ exists e, o = Raise (OSError e)) /\
    (forall a, a ∈ dirs ->
       a ∈ fs_dirs w \/ (String.length a <= String.length name)%nat).
Proof.
  assert (Id : forall w0, w0 = with_fs (fs_files w0) (fs_dirs w0) w0)
    by (intros w0; destruct w0; reflexivity).
  assert (Mk : forall p w0 n, (String.length p <= n)%nat ->
            exists o dirs,
              os_mkdir p w0 = (o, with_fs (fs_files w0) dirs w0) /\
              (o = Ret tt \/ exists e, o = Raise (OSError e)) /\
              (forall a, a ∈ dirs -> a ∈ fs_dirs w0 \/ (String.length a <= n)%nat)).
  { intros p w0 n Hn. destruct (os_mkdir_cases p w0) as [[e E]|E]; rewrite E.
    - exists (Raise (OSError e)), (fs_dirs w0). split; [f_equal; apply Id|].
      split; [right; eexists; reflexivity|]. intros a Ha. left. exact Ha.
    - exists (Ret tt), ({[p]} ∪ fs_dirs w0). split; [reflexivity|].
      split; [left; reflexivity|]. intros a Ha.
      apply elem_of_union in Ha. destruct Ha as [Ha|Ha]; [|left; exact Ha].
      apply elem_of_singleton in Ha. subst a. right. exact Hn. }
  revert name w. induction rounds as [|k IH]; intros name w.
  - cbn [os_makedirs_rec]. apply Mk. lia.
  - cbn [os_makedirs_rec]. pose proof (split_head_le name) as Hle.
    cbv zeta in Hle.
    set (ht := if Py.truthy (snd (OsPath.split name)) then OsPath.split name
               else OsPath.split (fst (OsPath.split name))) in *.
    destruct (Py.truthy (fst ht) && Py.truthy (snd ht)
              && negb (os_path_exists (fst ht) w)).
    + unfold bind, try_except.
      destruct (IH (fst ht) w) as (o1 & dirs1 & E1 & Ho1 & Hd1). rewrite E1.
      assert (Hd1' : forall a, a ∈ dirs1 ->
                a ∈ fs_dirs w \/ (String.length a <= String.length name)%nat).
      { intros a Ha. destruct (Hd1 a Ha) as [Hin|Hlen]; [left; exact Hin|].
        right. lia. }
      assert (Go : exists o dirs,
                 (if String.eqb (snd ht) "." then ret tt else os_mkdir name)
                   (with_fs (fs_files w) dirs1 w)
                 = (o, with_fs (fs_files w) dirs w) /\
                 (o = Ret tt \/ exists e, o = Raise (OSError e)) /\
                 (forall a, a ∈ dirs ->
                    a ∈ fs_dirs w \/ (String.length a <= String.length name)%nat)).
      { destruct (String.eqb (snd ht) ".").
        - exists (Ret tt), dirs1. split; [reflexivity|].
          split; [left; reflexivity | exact Hd1'].
        - destruct (Mk name (with_fs (fs_files w) dirs1 w) (String.length name)
                      (Nat.le_refl _)) as (o & dirs & E & Ho & Hd).
          exists o, dirs. split; [exact E|]. split; [exact Ho|].
          intros a Ha. destruct (Hd a Ha) as [Hin|Hlen]; [|right; exact Hlen].
          apply Hd1'. exact Hin. }
      destruct Ho1 as [-> | [e ->]].
      * exact Go.
      * cbn [ret]. destruct (is_FileExistsError (OSError e)).
        -- exact Go.
        -- exists (Raise (OSError e)), dirs1. split; [reflexivity|].
           split; [right; eexists; reflexivity | exact Hd1'].
    + apply Mk. lia.
Qed.

(** ** The writer *)

Lemma open_wb_ok (p : string) (w : World) :
  can_open p w ->
  open_wb p w = (Ret tt, with_fs (<[p := EmptyString]> (fs_files w)) (fs_dirs w) w).
Proof.
  intros (Hd & Ht & Hp & Hn). unfold open_wb.
  rewrite Hd, Ht, Hp. simpl. rewrite andb_false_r.
  rewrite bool_decide_eq_false_2 by exact Hn. reflexivity.
Qed.

(** The outcome of the last two [try] blocks of [new_file] when the
    directory is there and the file can be opened. *)
Lemma new_file_write_ok (location cu b : string) (w : World) :
  can_open location w ->
  new_file_write location cu (ret b) w
    = (Ret (Some location),
       with_fs (<[location := (b ++ watermark_at (utcnow w) (or_location cu location))%string]>
                  (fs_files w)) (fs_dirs w) w).
Proof.
  intros Hc. pose proof Hc as (Hd & Ht & Hp & Hn).
  unfold new_file_write, bind, try_except.
  assert (Ex : os_path_exists (OsPath.dirname location) w = true).
  { unfold os_path_exists. rewrite Hp. apply orb_true_r. }
  rewrite Ex. cbn [negb]. cbn [ret].
  rewrite (open_wb_ok location w Hc). unfold ret, f_write, _watermark.
  cbn [fs_files fs_dirs with_fs utcnow].
  rewrite lookup_insert_eq. cbn [default].
  rewrite lookup_insert_eq. cbn [default].
  rewrite !insert_insert_eq. reflexivity.
Qed.

Lemma new_file_needs_content_url (location : string) (content : option string)
    (w : World) :
  exists msg, new_file location None content w = (Raise (AssertionError msg), w).
Proof.
  unfold new_file.
  destruct (Py.truthy location); simpl; [|eexists; reflexivity].
  rewrite orb_false_r.
  destruct (opt_truthy content); simpl; eexists; reflexivity.
Qed.

(** C10: a call of [new_file] with a location and bytes but no
    [content_url] stops at the assertion on [content_url]: it raises
    [AssertionError] with the message of that assertion and touches
    nothing. *)
Theorem C10_new_file_content_only_raises (location b : string) (w : World) :
  Py.truthy location = true -> Py.truthy b = true ->
  new_file location None (Some b) w
    = (Raise (AssertionError "File url must be a string!"), w).
Proof.
  intros Hl Hb. unfold new_file. rewrite Hl. simpl. rewrite Hb. reflexivity.
Qed.

(** [new_file] up to the overwrite check, for a call that passes the
    assertions and whose extension is allowed. *)
Lemma new_file_allowed (location cu tail : string) (content : option string)
    (w : World) :
  Py.truthy location = true ->
  opt_truthy content || Py.truthy cu = true ->
  Py.rsplit_dot_1 location = Some tail ->
  cache_sound w ->
  is_allowed_body (allowed_file_ext w) ("." ++ Py.strip (Py.lower tail)) = true ->
  exists c,
    new_file location (Some cu) content w =
      (if os_path_exists location w then
         if negb (over_write w) then (Ret (Some location), with_cache c w)
         else (run! os_remove location in
               new_file_content location cu content) (with_cache c w)
       else new_file_content location cu content (with_cache c w)).
Proof.
  intros Hl Hc Ht Hs Ha.
  destruct (is_allowed_sound ("." ++ Py.strip (Py.lower tail)) w Hs)
    as (c & E & _).
  exists c. unfold new_file. rewrite Hl. cbn [negb opt_truthy].
  rewrite Hc, Ht. cbn [negb]. unfold bind at 1. rewrite E, Ha. reflexivity.
Qed.


Lemma open_wb_cases (p : string) (w : World) :
  (exists e, open_wb p w = (Raise (OSError e), w)) \/
  open_wb p w = (Ret tt, with_fs (<[p := EmptyString]> (fs_files w)) (fs_dirs w) w).
Proof.
  unfold open_wb.
  destruct (os_path_isdir p w || trailing_sep p); [left; eexists; reflexivity|].
  destruct (Py.truthy (OsPath.dirname p) && _); [left; eexists; reflexivity|].
  destruct (bool_decide (p ∈ fs_denied w)); [left; eexists; reflexivity|].
  right. reflexivity.
Qed.

Lemma os_makedirs_cases (d : string) (w : World) :
  exists dirs,
    (exists e, os_makedirs d w = (Raise (OSError e), with_fs (fs_files w) dirs w)) \/
    os_makedirs d w = (Ret tt, with_fs (fs_files w) dirs w).
Proof.
  unfold os_makedirs.
  destruct (os_makedirs_rec_frame (String.length d) d w)
    as (o & dirs & E & [-> | [e ->]] & _); exists dirs.
  - right. exact E.
  - left. exists e. exact E.
Qed.

(** The [with open(...)] block of [new_file]: it either raises an
    [OSError] on opening, or leaves [b ++ m] at [p]. *)
Lemma new_file_block_cases (p b src : string) (w : World) :
  let block :=
    (run! open_wb p in
     let! body := ret b in
     run! f_write p body in
     let! m := _watermark src in
     run! f_write p m in
     ret (Some p)) in
  (exists e, block w = (Raise (OSError e), w)) \/
  block w = (Ret (Some p),
             with_fs (<[p := (b ++ watermark_at (utcnow w) src)%string]> (fs_files w))
                     (fs_dirs w) w).
Proof.
  cbv zeta.
  destruct (open_wb_cases p w) as [[e E]|E].
  - left. exists e. unfold bind at 1. rewrite E. reflexivity.
  - right. unfold bind at 1. rewrite E.
    unfold bind, ret, f_write, _watermark.
    cbn [fs_files fs_dirs with_fs utcnow].
    rewrite lookup_insert_eq. cbn [default].
    rewrite lookup_insert_eq. cbn [default].
    rewrite !insert_insert_eq. reflexivity.
Qed.

(** Whenever the last part of [new_file] returns a path, the file at
    [location] holds the body followed by the watermark of
    [content_url or location]. *)
Lemma new_file_write_inv (location cu b : string) (w w' : World) (r : string) :
  new_file_write location cu (ret b) w = (Ret (Some r), w') ->
  r = location /\ utcnow w' = utcnow w /\
  fs_files w' !! location
    = Some (b ++ watermark_at (utcnow w) (or_location cu location))%string.
Proof.
  unfold new_file_write. unfold bind at 1. unfold try_except at 1.
  destruct (os_path_exists (OsPath.dirname location) w); cbn [negb].
  - cbn [negb ret]. unfold try_except.
    destruct (new_file_block_cases location b (or_location cu location) w)
      as [[e E]|E]; cbv zeta in E; rewrite E.
    + cbn. discriminate.
    + intros [= <- <-]. cbn [fs_files with_fs utcnow].
      rewrite lookup_insert_eq. auto.
  - unfold bind at 1.
    destruct (os_makedirs_cases (OsPath.dirname location) w)
      as (dirs & [[e E]|E]); rewrite E.
    + cbn. discriminate.
    + cbn [ret negb]. unfold try_except.
      destruct (new_file_block_cases location b (or_location cu location)
                  (with_fs (fs_files w) dirs w)) as [[e E']|E'];
        cbv zeta in E'; rewrite E'.
      * cbn. discriminate.
      * intros [= <- <-]. cbn [fs_files with_fs utcnow].
        rewrite lookup_insert_eq. auto.
Qed.

Lemma is_allowed_total (ext : string) (w : World) :
  exists v c, is_allowed ext w = (Ret v, with_cache c w).
Proof.
  unfold is_allowed. destruct (lru_find ext (is_allowed_cache w));
    eexists; eexists; reflexivity.
Qed.

(** [get] changes nothing but the byte counter. *)
Lemma get_frame (u : string) (w w' : World) (o : outcome Response) :
  get u w = (o, w') ->
  exists n, w' = with_download_size n w.
Proof.
  assert (Id : w = with_download_size (download_size w) w) by (destruct w; reflexivity).
  unfold get.
  destruct (SESSION_get w u) as [resp|e].
  - destruct (content_length resp) as [[n|]|]; intros [= <- <-];
      eexists; first [reflexivity | exact Id].
  - destruct e; try (intros [= <- <-]; eexists; exact Id).
    destruct response as [resp|]; cbn [not_response];
      [destruct (negb (ok resp))|]; intros [= <- <-]; eexists; exact Id.
Qed.

Lemma new_file_content_inv (location cu : string) (supplied : option string)
    (w w' : World) (r : string) :
  new_file_content location cu supplied w = (Ret (Some r), w') ->
  r = location /\
  exists body,
    fs_files w' !! location
      = Some (body ++ watermark_at (utcnow w) (or_location cu location))%string /\
    (opt_truthy supplied = true -> supplied = Some body) /\
    (opt_truthy supplied = false ->
       exists req, fst (get cu w) = Ret req /\ ok req = true /\ body = content req).
Proof.
  unfold new_file_content.
  destruct (opt_truthy supplied) eqn:Es; cbn [negb].
  - destruct supplied as [b|]; [|discriminate].
    intros E. apply new_file_write_inv in E. destruct E as (-> & _ & F).
    split; [reflexivity|]. exists b. split; [exact F|].
    split; [reflexivity | discriminate].
  - unfold bind at 1. destruct (get cu w) as [[req|e] w1] eqn:G; [|discriminate].
    destruct (ok req) eqn:Ok; cbn [negb]; [|discriminate].
    intros E. apply new_file_write_inv in E. destruct E as (-> & _ & F).
    split; [reflexivity|]. exists (content req). split.
    + destruct (get_frame _ _ _ _ G) as (n & ->). exact F.
    + split; [discriminate|]. intros _. exists req. auto.
Qed.

(** Which watermark [_watermark] picks, by the lower-cased extension of
    its argument. *)
Lemma watermark_at_cases (now src : string) :
  let ext := Py.lower (snd (OsPath.splitext src)) in
  (In ext markup_exts ->
     watermark_at now src = MARK_format "<!--!" VERSION src now "-->") /\
  (In ext block_exts ->
     watermark_at now src = MARK_format "/*!" VERSION src now "*/") /\
  (~ In ext markup_exts -> ~ In ext block_exts ->
     watermark_at now src = EmptyString).
Proof.
  cbv zeta. unfold watermark_at.
  destruct (Py.contains markup_exts _) eqn:E1;
    [apply contains_In in E1 | assert (N1 : ~ In (Py.lower (snd (OsPath.splitext src))) markup_exts)
       by (intros F; apply contains_In in F; congruence)].
  - split; [reflexivity|]. split; [|tauto].
    intros F. exfalso. revert E1 F.
    generalize (Py.lower (snd (OsPath.splitext src))). intros e.
    unfold markup_exts, block_exts. simpl. intuition congruence.
  - destruct (Py.contains block_exts _) eqn:E2.
    + split; [tauto|]. split; [reflexivity|].
      apply contains_In in E2. tauto.
    + split; [tauto|]. split; [|reflexivity].
      intros F. apply contains_In in F. congruence.
Qed.

Lemma get_fst_network (u : string) (w1 w2 : World) :
  SESSION_get w1 = SESSION_get w2 -> fst (get u w1) = fst (get u w2).
Proof.
  intros E. unfold get. rewrite E.
  destruct (SESSION_get w2 u) as [resp|e].
  - destruct (content_length resp) as [[n|]|]; reflexivity.
  - destruct e; try reflexivity.
    destruct response as [resp|]; cbn [not_response];
      [destruct (negb (ok resp))|]; reflexivity.
Qed.

(** C7: when [new_file] writes a file, the bytes after the content are
    the watermark of [content_url or location], picked by the extension
    of that source (of the URL whenever one is given, not of the file
    written): the markup comment for .html, .htm, .xhtml, .aspx, .asp
    and .php, the block comment for .css, .js and .xml, in any letter
    case, and nothing for the rest. *)
Theorem C7_watermark_follows_source (location cu : string)
    (supplied : option string) (w w' : World) :
  os_path_exists location w && negb (over_write w) = false ->
  new_file location (Some cu) supplied w = (Ret (Some location), w') ->
  let src := or_location cu location in
  let ext := Py.lower (snd (OsPath.splitext src)) in
  exists body mark,
    fs_files w' !! location = Some (body ++ mark)%string /\
    (opt_truthy supplied = true -> supplied = Some body) /\
    (opt_truthy supplied = false ->
       exists req, fst (get cu w) = Ret req /\ ok req = true /\
                   body = content req) /\
    (In ext markup_exts ->
       mark = MARK_format "<!--!" VERSION src (utcnow w) "-->") /\
    (In ext block_exts ->
       mark = MARK_format "/*!" VERSION src (utcnow w) "*/") /\
    (~ In ext markup_exts -> ~ In ext block_exts -> mark = EmptyString).
Proof.
  intros Hex E. cbv zeta.
  assert (K : forall w2, utcnow w2 = utcnow w -> SESSION_get w2 = SESSION_get w ->
                new_file_content location cu supplied w2 = (Ret (Some location), w') ->
                exists body,
                  fs_files w' !! location
                    = Some (body ++ watermark_at (utcnow w) (or_location cu location))%string /\
                  (opt_truthy supplied = true -> supplied = Some body) /\
                  (opt_truthy supplied = false ->
                     exists req, fst (get cu w) = Ret req /\ ok req = true /\
                                 body = content req)).
  { intros w2 Hu Hn E2. apply new_file_content_inv in E2.
    destruct E2 as (_ & body & F & S1 & S2). exists body.
    rewrite Hu in F. split; [exact F|]. split; [exact S1|].
    intros Hs. destruct (S2 Hs) as (req & G & Ok & ->).
    exists req. rewrite <- (get_fst_network cu w2 w Hn). auto. }
  assert (Main : exists body,
             fs_files w' !! location
               = Some (body ++ watermark_at (utcnow w) (or_location cu location))%string /\
             (opt_truthy supplied = true -> supplied = Some body) /\
             (opt_truthy supplied = false ->
                exists req, fst (get cu w) = Ret req /\ ok req = true /\
                            body = content req)).
  { revert E. unfold new_file.
    destruct (Py.truthy location); cbn [negb]; [|discriminate].
    destruct (opt_truthy supplied || opt_truthy (Some cu)); cbn [negb];
      [|discriminate].
    destruct (Py.rsplit_dot_1 location) as [tail|]; [|discriminate].
    unfold bind at 1.
    destruct (is_allowed_total ("." ++ Py.strip (Py.lower tail)) w)
      as (v & c & Ea). rewrite Ea.
    destruct v; cbn [negb]; [|discriminate].
    assert (Ex : os_path_exists location (with_cache c w) = os_path_exists location w)
      by reflexivity.
    rewrite Ex. cbn [over_write with_cache].
    destruct (os_path_exists location w).
    - destruct (over_write w); [|discriminate]. cbn [negb].
      unfold bind at 1. unfold os_remove. cbn [fs_files fs_dirs with_cache].
      destruct (fs_files w !! location).
      + apply K; reflexivity.
      + destruct (bool_decide _); discriminate.
    - apply K; reflexivity. }
  destruct Main as (body & F & S1 & S2).
  exists body, (watermark_at (utcnow w) (or_location cu location)).
  split; [exact F|]. split; [exact S1|]. split; [exact S2|].
  apply watermark_at_cases.
Qed.

(** ** Files of elements *)

Lemma write_with_watermark_ok (fp u body : string) (w : World) :
  can_open fp w ->
  write_with_watermark fp u body w
    = (Ret tt,
       with_fs (<[fp := (body ++ watermark_at (utcnow w) u)%string]> (fs_files w))
               (fs_dirs w) w).
Proof.
  intros Hc. unfold write_with_watermark, try_except, bind.
  rewrite (open_wb_ok fp w Hc). unfold f_write, _watermark.
  cbn [fs_files fs_dirs with_fs utcnow].
  rewrite lookup_insert_eq. cbn [default].
  rewrite lookup_insert_eq. cbn [default].
  rewrite !insert_insert_eq. reflexivity.
Qed.

(** The block never raises: both [except] clauses only log. *)
Lemma write_with_watermark_total (fp u body : string) (w : World) :
  exists w', write_with_watermark fp u body w = (Ret tt, w').
Proof.
  unfold write_with_watermark, try_except, bind.
  destruct (open_wb_cases fp w) as [[e E]|E]; rewrite E; cbn;
    eexists; reflexivity.
Qed.

(** After a successful [os.makedirs] of its directory, [fp] can be
    opened. *)
Lemma can_open_after_makedirs (fp : string) (w : World) :
  os_path_isdir fp w = false -> trailing_sep fp = false -> fp ∉ fs_denied w ->
  fst (os_makedirs (OsPath.dirname fp) w) = Ret tt ->
  os_path_isdir (OsPath.dirname fp) (snd (os_makedirs (OsPath.dirname fp) w)) = true ->
  exists dirs,
    os_makedirs (OsPath.dirname fp) w = (Ret tt, with_fs (fs_files w) dirs w) /\
    can_open fp (with_fs (fs_files w) dirs w).
Proof.
  intros Hnd Hts Hden Hok Hisdir. unfold os_makedirs in *.
  destruct (os_makedirs_rec_frame (String.length (OsPath.dirname fp))
              (OsPath.dirname fp) w) as (o & dirs & E & _ & Hd).
  rewrite E in Hok, Hisdir. cbn [fst snd] in Hok, Hisdir. subst o.
  exists dirs. split; [exact E|].
  assert (Hrootfp : is_root fp = false).
  { unfold os_path_isdir in Hnd. destruct (is_root fp); [discriminate|reflexivity]. }
  unfold can_open. split; [|split; [exact Hts|split; [exact Hisdir | exact Hden]]].
  unfold os_path_isdir. cbn [fs_dirs with_fs]. rewrite Hrootfp. cbn [orb].
  apply bool_decide_eq_false_2. intros Hin.
  destruct (Hd fp Hin) as [Hold | Hlen].
  - unfold os_path_isdir in Hnd. rewrite Hrootfp in Hnd. cbn [orb] in Hnd.
    apply bool_decide_eq_false_1 in Hnd. contradiction.
  - pose proof (dirname_shorter fp Hts). lia.
Qed.

(** [os.makedirs] looks at the disk only: a change [f] of the rest of
    the world passes through it. *)
Lemma os_mkdir_commute (f : World -> World) (p : string) (w : World) :
  (forall w, fs_files (f w) = fs_files w) ->
  (forall w, fs_dirs (f w) = fs_dirs w) ->
  (forall w, fs_denied (f w) = fs_denied w) ->
  (forall a b w, f (with_fs a b w) = with_fs a b (f w)) ->
  os_mkdir p (f w) = (fst (os_mkdir p w), f (snd (os_mkdir p w))).
Proof.
  intros Hf Hd Hn Hc. unfold os_mkdir, os_path_exists, os_path_isdir.
  rewrite !Hf, !Hd, !Hn.
  destruct (negb (Py.truthy p)); [reflexivity|].
  destruct (_ || _); [reflexivity|].
  destruct (_ && _); [reflexivity|].
  destruct (_ && _); [reflexivity|].
  destruct (bool_decide _); [reflexivity|].
  cbn [fst snd]. rewrite Hc. reflexivity.
Qed.

Lemma os_makedirs_rec_commute (f : World -> World) :
  (forall w, fs_files (f w) = fs_files w) ->
  (forall w, fs_dirs (f w) = fs_dirs w) ->
  (forall w, fs_denied (f w) = fs_denied w) ->
  (forall a b w, f (with_fs a b w) = with_fs a b (f w)) ->
  forall (rounds : nat) (name : string) (w : World),
    os_makedirs_rec rounds name (f w)
      = (fst (os_makedirs_rec rounds name w), f (snd (os_makedirs_rec rounds name w))).
Proof.
  intros Hf Hd Hn Hc. induction rounds as [|k IH]; intros name w;
    cbn [os_makedirs_rec].
  - apply os_mkdir_commute; assumption.
  - set (ht := if Py.truthy (snd (OsPath.split name)) then OsPath.split name
               else OsPath.split (fst (OsPath.split name))).
    assert (Ex : os_path_exists (fst ht) (f w) = os_path_exists (fst ht) w).
    { unfold os_path_exists, os_path_isdir. rewrite Hf, Hd. reflexivity. }
    rewrite Ex.
    destruct (Py.truthy (fst ht) && Py.truthy (snd ht)
              && negb (os_path_exists (fst ht) w));
      [|apply os_mkdir_commute; assumption].
    unfold bind, try_except. rewrite IH.
    destruct (os_makedirs_rec k (fst ht) w) as [[[]|e] w1]; cbn [fst snd].
    + destruct (String.eqb (snd ht) "."); [reflexivity|].
      apply os_mkdir_commute; assumption.
    + destruct (is_FileExistsError e); [|reflexivity]. cbn [ret].
      destruct (String.eqb (snd ht) "."); [reflexivity|].
      apply os_mkdir_commute; assumption.
Qed.

Lemma may_write_commute (f : World -> World) (fp : string) (w : World) :
  (forall w, fs_files (f w) = fs_files w) ->
  (forall w, fs_dirs (f w) = fs_dirs w) ->
  (forall w, fs_denied (f w) = fs_denied w) ->
  (forall w, over_write (f w) = over_write w) ->
  (forall a b w, f (with_fs a b w) = with_fs a b (f w)) ->
  may_write fp w -> may_write fp (f w).
Proof.
  intros Hf Hd Hn Ho Hc (Hov & Hnd & Hts & Hden & Htr & Hdir).
  assert (Hi : forall p v, os_path_isdir p (f v) = os_path_isdir p v).
  { intros p v. unfold os_path_isdir. rewrite Hd. reflexivity. }
  assert (He : forall p v, os_path_exists p (f v) = os_path_exists p v).
  { intros p v. unfold os_path_exists. rewrite Hf, Hi. reflexivity. }
  pose proof (os_makedirs_rec_commute f Hf Hd Hn Hc
                (String.length (OsPath.dirname fp)) (OsPath.dirname fp) w) as Em.
  fold (os_makedirs (OsPath.dirname fp)) in Em.
  unfold may_write, directory_ready. rewrite Hf, Ho, Hn, !Hi, He, Em.
  cbn [fst snd]. rewrite Hi.
  split; [exact Hov|]. split; [exact Hnd|]. split; [exact Hts|].
  split; [exact Hden|]. split; [exact Htr|].
  destruct Hdir as [(Hdd & E) | Hb]; [left | right; exact Hb].
  split; [exact Hdd|]. rewrite E. reflexivity.
Qed.

(** The instances that the proofs below meet. *)
Lemma may_write_with_cache (fp : string) (c : list (string * bool)) (w : World) :
  may_write fp w -> may_write fp (with_cache c w).
Proof. apply (may_write_commute (with_cache c)); reflexivity. Qed.

Lemma may_write_with_download_size (fp : string) (n : Z) (w : World) :
  may_write fp w -> may_write fp (with_download_size n w).
Proof. apply (may_write_commute (with_download_size n)); reflexivity. Qed.


Lemma prepare_location_ready (fp : string) (w : World) :
  may_write fp w ->
  exists dirs,
    prepare_location fp w = (Ret true, with_fs (fs_files w) dirs w) /\
    can_open fp (with_fs (fs_files w) dirs w).
Proof.
  intros (Hov & Hnd & Hts & Hden & Htr & Hdir).
  assert (Id : w = with_fs (fs_files w) (fs_dirs w) w) by (destruct w; reflexivity).
  unfold prepare_location.
  destruct (os_path_exists fp w) eqn:Ex.
  - assert (Hs : is_Some (fs_files w !! fp)).
    { unfold os_path_exists in Ex. rewrite Hnd, orb_false_r in Ex.
      apply bool_decide_eq_true_1 in Ex. exact Ex. }
    rewrite (Hov Hs). cbn [negb]. exists (fs_dirs w).
    rewrite <- Id. split; [reflexivity|].
    destruct Hdir as [(Hd & _) | (Hnone & _)].
    + repeat split; assumption.
    + rewrite Hnone in Hs. destruct Hs as [x Hx]. discriminate.
  - unfold try_except, bind.
    destruct Hdir as [(Hd & Em) | (Hnone & Hne & Hok & Hisdir)].
    + rewrite Em. cbn [is_FileExistsError ret].
      exists (fs_dirs w). rewrite <- Id. split; [reflexivity|].
      repeat split; assumption.
    + destruct (can_open_after_makedirs fp w Hnd Hts Hden Hok Hisdir)
        as (dirs & Em & Hopen).
      rewrite Em. cbn [ret]. exists dirs. split; [reflexivity | exact Hopen].
Qed.


(** [download_file] up to the extension check. *)
Lemma download_file_fetched (self : Element) (w : World) (req : Response) :
  Py.truthy (file_path self) = true ->
  may_write (file_path self) w ->
  fst (get (url self) w) = Ret req -> ok req = true ->
  cache_sound w ->
  exists dirs c n,
    let w2 := with_cache c (with_download_size n (with_fs (fs_files w) dirs w)) in
    can_open (file_path self) w2 /\
    download_file self w =
      (let allowed :=
         is_allowed_body (allowed_file_ext w) (snd (OsPath.splitext (file_path self))) in
       let! proceed :=
         (if negb allowed then
            if opt_truthy (default_fileext self)
            then raise (AttributeError "'list' object has no attribute 'extends'")
            else
              let! found :=
                first_allowed
                  (guess_all_extensions
                     (Py.split_semicolon_0 (default EmptyString (content_type req)))) in
              ret (bool_decide (is_Some found))
          else ret true) in
       if negb proceed then ret tt
       else write_with_watermark (file_path self) (url self) (content req)) w2.
Proof.
  intros Ht Hm G Ok Hs.
  destruct (prepare_location_ready _ _ Hm) as (dirs & Ep & Hopen).
  destruct (get (url self) (with_fs (fs_files w) dirs w)) as [o w1] eqn:G1.
  destruct (get_frame _ _ _ _ G1) as (n & ->).
  assert (o = Ret req) as ->.
  { rewrite <- G. change o with (fst (o, with_download_size n (with_fs (fs_files w) dirs w))).
    rewrite <- G1. apply get_fst_network. reflexivity. }
  set (w1 := with_download_size n (with_fs (fs_files w) dirs w)) in *.
  assert (Hs1 : cache_sound w1) by exact Hs.
  destruct (is_allowed_sound (snd (OsPath.splitext (file_path self))) w1 Hs1)
    as (c & Ea & _).
  exists dirs, c, n. cbv zeta. split; [exact Hopen|].
  unfold download_file. rewrite Ht. cbn [negb].
  unfold bind at 1. rewrite Ep. cbn [negb].
  unfold bind at 1. rewrite G1. rewrite Ok. cbn [negb].
  unfold bind at 1. rewrite Ea.
  reflexivity.
Qed.

(** C8: when the extension of the file path is not allowed and the
    element has a default extension, the fallback of [download_file]
    stops at [file_exts.extends(...)]: the method raises
    [AttributeError] and writes nothing. *)
Theorem C8_extension_fallback_raises (self : Element) (w : World)
    (req : Response) :
  Py.truthy (file_path self) = true ->
  may_write (file_path self) w ->
  fst (get (url self) w) = Ret req -> ok req = true ->
  cache_sound w ->
  is_allowed_body (allowed_file_ext w) (snd (OsPath.splitext (file_path self))) = false ->
  opt_truthy (default_fileext self) = true ->
  exists w',
    download_file self w
      = (Raise (AttributeError "'list' object has no attribute 'extends'"), w') /\
    fs_files w' = fs_files w.
Proof.
  intros Ht Hm G Ok Hs Ha Hd.
  destruct (download_file_fetched self w req Ht Hm G Ok Hs)
    as (dirs & c & n & _ & E).
  cbv zeta in E. rewrite E, Ha, Hd. cbn [negb].
  unfold bind, raise. eexists. split; reflexivity.
Qed.

(** ** The stylesheet resolver *)

Lemma repl_data_prefix (self : Element) (m : Match) (w : World) :
  Py.slice_to 4 (group1 m) = "data"%string ->
  repl self m w = (Ret (group1 m, self), w).
Proof. intros E. unfold repl. rewrite E. reflexivity. Qed.

Lemma repl_reference (self : Element) (m : Match) (w : World) :
  Py.slice_to 4 (group1 m) <> "data"%string ->
  Py.utf8_valid (group1 m) = true ->
  repl self m w =
    (Ret (("url(" ++ pathname2url
                       (relate (file_path (child_of self (group1 m) w)) (file_path self))
                ++ ")")%string,
          set_files (files self + 1) self),
     with_threads (threads w ++ [(child_of self (group1 m) w, Started)]) w).
Proof.
  intros E V. unfold repl, Py.decode. apply String.eqb_neq in E. rewrite E, V.
  unfold child_of, child_base_path, bind, start, ret.
  destruct (Py.endswith (group1 m) ".css"); reflexivity.
Qed.

(** A reference that is no well-formed UTF-8 makes [url.decode()] raise;
    no child is made for it. *)
Lemma repl_undecodable (self : Element) (m : Match) (w : World) :
  Py.slice_to 4 (group1 m) <> "data"%string ->
  Py.utf8_valid (group1 m) = false ->
  repl self m w = (Raise UnicodeDecodeError, w).
Proof.
  intros E V. unfold repl, Py.decode. apply String.eqb_neq in E. rewrite E, V.
  reflexivity.
Qed.

(** C6: a relative URL that merely begins with the letters [data], here
    [data/logo.png], is handed back as it stands: no child is created,
    no thread is started and no [url(...)] is produced. *)
Theorem C6_repl_keeps_url_with_data_prefix (self : Element) (w : World) :
  repl self {| group0 := "url(data/logo.png)"; group1 := "data/logo.png" |} w
    = (Ret ("data/logo.png"%string, self), w).
Proof. apply repl_data_prefix. reflexivity. Qed.


(** ** What a run asks of the network *)






















(** ** Further properties of the fetcher and of the writer *)

(** The byte counter follows the declared length: a response that
    [SESSION.get] returns is handed back as it is, the counter grows by
    its [content-length] (by nothing when the header is absent), and a
    header that is no integer makes [get] raise [ValueError], which no
    [except] clause catches.  Nothing else of the world changes. *)
Lemma get_counts_declared_length (u : string) (w : World) (resp : Response) :
  SESSION_get w u = Ret resp ->
  (content_length resp = None -> get u w = (Ret resp, w)) /\
  (forall n, content_length resp = Some (Some n) ->
     get u w = (Ret resp, with_download_size (download_size w + n) w)) /\
  (content_length resp = Some None -> get u w = (Raise ValueError, w)).
Proof.
  intros E. unfold get. rewrite E.
  split; [|split]; [intros L | intros n L | intros L]; rewrite L; reflexivity.
Qed.


(** X2: a call of [new_file] whose extension is not allowed stops before it
    looks at the disk or at the network: it returns [None], and only the
    cache table of [is_allowed] has changed. *)
Theorem new_file_disallowed_extension (location cu tail : string)
    (supplied : option string) (w : World) :
  Py.truthy location = true ->
  opt_truthy supplied || Py.truthy cu = true ->
  Py.rsplit_dot_1 location = Some tail ->
  cache_sound w ->
  is_allowed_body (allowed_file_ext w) ("." ++ Py.strip (Py.lower tail)) = false ->
  exists c, new_file location (Some cu) supplied w = (Ret None, with_cache c w).
Proof.
  intros Hl Hc Ht Hs Ha.
  destruct (is_allowed_sound ("." ++ Py.strip (Py.lower tail)) w Hs)
    as (c & E & _).
  exists c. unfold new_file. rewrite Hl. cbn [negb opt_truthy].
  rewrite Hc, Ht. cbn [negb]. unfold bind at 1. rewrite E, Ha. reflexivity.
Qed.

(** X3: a location without a dot makes [new_file] raise [IndexError]: the
    extension is cut out with [rsplit('.', 1)[1]] before anything else
    happens. *)
Theorem new_file_location_without_dot (location cu : string)
    (supplied : option string) (w : World) :
  Py.truthy location = true ->
  opt_truthy supplied || Py.truthy cu = true ->
  Py.rfind "." location = -1 ->
  new_file location (Some cu) supplied w = (Raise IndexError, w).
Proof.
  intros Hl Hc Hr. unfold new_file. rewrite Hl. cbn [negb opt_truthy].
  rewrite Hc. cbn [negb]. unfold Py.rsplit_dot_1. rewrite Hr. reflexivity.
Qed.

Lemma os_path_exists_empty (w : World) :
  disk_sane w -> os_path_exists EmptyString w = false.
Proof.
  intros [Hf Hd]. unfold os_path_exists, os_path_isdir. rewrite Hf.
  rewrite bool_decide_eq_false_2 by apply is_Some_None.
  rewrite bool_decide_eq_false_2 by exact Hd. reflexivity.
Qed.

(** The last part of [new_file] on a bare file name: [os.makedirs('')]
    raises, the [except OSError] clause returns [None]. *)
Lemma new_file_write_bare_name (location cu : string) (body : M string)
    (w : World) :
  OsPath.dirname location = EmptyString -> disk_sane w ->
  new_file_write location cu body w = (Ret None, w).
Proof.
  intros Hd Hs. unfold new_file_write. rewrite Hd.
  unfold bind at 1. unfold try_except at 1.
  rewrite (os_path_exists_empty w Hs). cbn [negb].
  unfold bind, os_makedirs. cbn. reflexivity.
Qed.

(** X4: a location without a directory part is never written by [new_file]:
    whatever the arguments, no path is returned for a file that did not
    exist, and the files on the disk stay as they were. *)
Theorem new_file_bare_name_writes_nothing (location : string)
    (content_url supplied : option string) (w : World) :
  OsPath.dirname location = EmptyString -> disk_sane w ->
  os_path_exists location w = false ->
  fs_files (snd (new_file location content_url supplied w)) = fs_files w /\
  forall p, fst (new_file location content_url supplied w) <> Ret (Some p).
Proof.
  intros Hd Hs Hex.
  cut (exists o w', new_file location content_url supplied w = (o, w') /\
         fs_files w' = fs_files w /\ forall p, o <> Ret (Some p)).
  { intros (o & w' & E & F & N). rewrite E. split; [exact F | exact N]. }
  unfold new_file.
  destruct (negb (Py.truthy location));
    [eexists; eexists; split; [reflexivity|]; split; [reflexivity | discriminate]|].
  destruct (negb (opt_truthy supplied || opt_truthy content_url));
    [eexists; eexists; split; [reflexivity|]; split; [reflexivity | discriminate]|].
  destruct content_url as [cu|];
    [|eexists; eexists; split; [reflexivity|]; split; [reflexivity | discriminate]].
  destruct (Py.rsplit_dot_1 location) as [tail|];
    [|eexists; eexists; split; [reflexivity|]; split; [reflexivity | discriminate]].
  unfold bind at 1.
  destruct (is_allowed_total ("." ++ Py.strip (Py.lower tail)) w) as (v & c & E).
  rewrite E. destruct v; cbn [negb];
    [|eexists; eexists; split; [reflexivity|]; split; [reflexivity | discriminate]].
  change (os_path_exists location (with_cache c w))
    with (os_path_exists location w). rewrite Hex.
  unfold new_file_content.
  assert (Hs' : forall n, disk_sane (with_download_size n (with_cache c w)))
    by (intros n; exact Hs).
  destruct (negb (opt_truthy supplied)).
  - unfold bind at 1.
    destruct (get cu (with_cache c w)) as [[req|e] w1] eqn:G;
      destruct (get_frame _ _ _ _ G) as (n & ->);
      [|eexists; eexists; split; [reflexivity|]; split; [reflexivity | discriminate]].
    destruct (negb (ok req));
      [eexists; eexists; split; [reflexivity|]; split; [reflexivity | discriminate]|].
    rewrite (new_file_write_bare_name _ _ _ _ Hd (Hs' n)).
    eexists; eexists; split; [reflexivity|]; split; [reflexivity | discriminate].
  - rewrite (new_file_write_bare_name location cu _ (with_cache c w) Hd Hs).
    eexists; eexists; split; [reflexivity|]; split; [reflexivity | discriminate].
Qed.

(** The last part of [new_file] on a file that may be written: the
    directory is made when it is missing, and the body and the watermark
    are stored. *)
Lemma new_file_write_ready (location cu b : string) (w : World) :
  may_write location w ->
  exists w',
    new_file_write location cu (ret b) w = (Ret (Some location), w') /\
    fs_files w' !! location
      = Some (b ++ watermark_at (utcnow w) (or_location cu location))%string.
Proof.
  intros (_ & Hnd & Hts & Hden & Htr & Hdir).
  destruct Hdir as [(Hd & _) | (_ & Hne & Hok & Hisdir)].
  - rewrite new_file_write_ok by (repeat split; assumption).
    eexists. split; [reflexivity|]. cbn [fs_files with_fs].
    apply lookup_insert_eq.
  - destruct (can_open_after_makedirs location w Hnd Hts Hden Hok Hisdir)
      as (dirs & Em & Hopen).
    unfold new_file_write. unfold bind at 1. unfold try_except at 1.
    rewrite Hne. cbn [negb]. unfold bind at 1.
    rewrite Em. cbn [ret negb].
    unfold try_except.
    destruct (new_file_block_cases location b (or_location cu location)
                (with_fs (fs_files w) dirs w))
      as [[e E]|E]; cbv zeta in E.
    + exfalso. revert E. unfold bind at 1.
      rewrite (open_wb_ok _ _ Hopen). unfold bind, ret, f_write, _watermark.
      discriminate.
    + rewrite E. eexists. split; [reflexivity|]. cbn [fs_files with_fs utcnow].
      apply lookup_insert_eq.
Qed.

(** X5: [new_file] with a URL and no bytes, on a location that holds no file
    and may be written: whatever [get] hands back with a good status
    (the placeholder included) is stored, followed by the watermark of
    the URL, and the location is returned. *)
Theorem new_file_stores_fetched_content (location cu tail : string)
    (supplied : option string) (req : Response) (w : World) :
  Py.truthy location = true -> Py.truthy cu = true ->
  opt_truthy supplied = false ->
  Py.rsplit_dot_1 location = Some tail ->
  cache_sound w ->
  is_allowed_body (allowed_file_ext w) ("." ++ Py.strip (Py.lower tail)) = true ->
  fs_files w !! location = None -> may_write location w ->
  fst (get cu w) = Ret req -> ok req = true ->
  exists w',
    new_file location (Some cu) supplied w = (Ret (Some location), w') /\
    fs_files w' !! location
      = Some (content req ++ watermark_at (utcnow w) cu)%string.
Proof.
  intros Hl Hcu Hsup Ht Hs Ha Hnone Hm G Ok.
  assert (Hc : opt_truthy supplied || Py.truthy cu = true)
    by (rewrite Hcu; apply orb_true_r).
  destruct (new_file_allowed location cu tail supplied w Hl Hc Ht Hs Ha) as (c & E).
  assert (Hex : os_path_exists location w = false).
  { destruct Hm as (_ & Hnd & _). unfold os_path_exists. rewrite Hnone, Hnd.
    rewrite bool_decide_eq_false_2 by apply is_Some_None. reflexivity. }
  rewrite Hex in E. rewrite E. unfold new_file_content. rewrite Hsup. cbn [negb].
  unfold bind at 1.
  destruct (get cu (with_cache c w)) as [o w1] eqn:G1.
  destruct (get_frame _ _ _ _ G1) as (n & ->).
  assert (o = Ret req) as ->.
  { rewrite <- G.
    change o with (fst (o, with_download_size n (with_cache c w))).
    rewrite <- G1. apply get_fst_network. reflexivity. }
  rewrite Ok. cbn [negb].
  destruct (new_file_write_ready location cu (content req)
              (with_download_size n (with_cache c w))
              (may_write_with_download_size _ n _ (may_write_with_cache _ c _ Hm)))
    as (w' & Ew & F).
  exists w'. split; [exact Ew|].
  rewrite F. unfold or_location. rewrite Hcu. reflexivity.
Qed.

(** X6: with overwriting enabled, a download that comes back with an error
    status costs the old file: [new_file] has removed it before the
    request, and returns [None] with nothing at the location. *)
Theorem new_file_failed_redownload_loses_file (location cu tail old : string)
    (supplied : option string) (req : Response) (w : World) :
  Py.truthy location = true -> Py.truthy cu = true ->
  opt_truthy supplied = false ->
  Py.rsplit_dot_1 location = Some tail ->
  cache_sound w ->
  is_allowed_body (allowed_file_ext w) ("." ++ Py.strip (Py.lower tail)) = true ->
  fs_files w !! location = Some old -> over_write w = true ->
  fst (get cu w) = Ret req -> ok req = false ->
  exists w',
    new_file location (Some cu) supplied w = (Ret None, w') /\
    fs_files w' !! location = None.
Proof.
  intros Hl Hcu Hsup Ht Hs Ha Hold Hov G Ok.
  assert (Hc : opt_truthy supplied || Py.truthy cu = true)
    by (rewrite Hcu; apply orb_true_r).
  destruct (new_file_allowed location cu tail supplied w Hl Hc Ht Hs Ha) as (c & E).
  assert (Hex : os_path_exists location w = true).
  { unfold os_path_exists. rewrite Hold.
    rewrite bool_decide_eq_true_2 by (eexists; reflexivity). reflexivity. }
  rewrite Hex, Hov in E. cbn [negb] in E. rewrite E.
  unfold bind at 1. unfold os_remove. cbn [fs_files with_cache]. rewrite Hold.
  unfold new_file_content. rewrite Hsup. cbn [negb]. unfold bind at 1.
  set (w0 := with_fs (delete location (fs_files w)) (fs_dirs (with_cache c w))
               (with_cache c w)).
  destruct (get cu w0) as [o w1] eqn:G1.
  destruct (get_frame _ _ _ _ G1) as (n & ->).
  assert (o = Ret req) as ->.
  { rewrite <- G. change o with (fst (o, with_download_size n w0)).
    rewrite <- G1. apply get_fst_network. reflexivity. }
  rewrite Ok. cbn [negb]. eexists. split; [reflexivity|].
  cbn [fs_files with_download_size w0 with_fs]. apply lookup_delete_eq.
Qed.

(** ** Further properties of the files of elements *)

Lemma prepare_location_existing (fp : string) (w : World) :
  os_path_exists fp w = true -> over_write w = false ->
  prepare_location fp w = (Ret false, w).
Proof. intros He Ho. unfold prepare_location. rewrite He, Ho. reflexivity. Qed.

Lemma write_file_existing (self : Element) (body : string) (w : World) :
  Py.truthy (file_path self) = true ->
  os_path_exists (file_path self) w = true -> over_write w = false ->
  write_file self body w = (Ret tt, w).
Proof.
  intros Ht He Ho. unfold write_file. rewrite Ht. cbn [negb].
  unfold bind at 1. rewrite (prepare_location_existing _ _ He Ho). reflexivity.
Qed.

(** X7: an element whose file is on the disk, with overwriting disabled,
    is left alone: [download_file] sends no request and [write_file]
    writes nothing; the world is untouched. *)
Theorem existing_file_is_skipped (self : Element) (w : World) :
  Py.truthy (file_path self) = true ->
  os_path_exists (file_path self) w = true -> over_write w = false ->
  download_file self w = (Ret tt, w) /\
  forall body, write_file self body w = (Ret tt, w).
Proof.
  intros Ht He Ho. split.
  - unfold download_file. rewrite Ht. cbn [negb].
    unfold bind at 1. rewrite (prepare_location_existing _ _ He Ho). reflexivity.
  - intros body. exact (write_file_existing self body w Ht He Ho).
Qed.

(** X8: a file path without a directory part, for a file that is not there:
    both methods call [os.makedirs('')], and the [FileNotFoundError] it
    raises is not the [FileExistsError] they catch. *)
Theorem bare_file_path_raises (self : Element) (w : World) :
  Py.truthy (file_path self) = true ->
  OsPath.dirname (file_path self) = EmptyString ->
  os_path_exists (file_path self) w = false ->
  download_file self w = (Raise (OSError FileNotFoundError), w) /\
  forall body, write_file self body w = (Raise (OSError FileNotFoundError), w).
Proof.
  intros Ht Hd He.
  assert (P : prepare_location (file_path self) w
              = (Raise (OSError FileNotFoundError), w)).
  { unfold prepare_location. rewrite He, Hd. reflexivity. }
  split; [|intros body]; [unfold download_file | unfold write_file];
    rewrite Ht; cbn [negb]; unfold bind at 1; rewrite P; reflexivity.
Qed.

(** A file cannot be written below a regular file. *)
Lemma may_write_not_below_file (fp b : string) (w : World) :
  fs_files w !! OsPath.dirname fp = Some b ->
  os_path_isdir (OsPath.dirname fp) w = false ->
  ~ may_write fp w.
Proof.
  intros Hb Hd (_ & _ & _ & _ & _ & [(Hi & _) | (_ & Hne & _)]).
  - congruence.
  - unfold os_path_exists in Hne. rewrite Hb in Hne.
    rewrite bool_decide_eq_true_2 in Hne by (eexists; reflexivity).
    discriminate.
Qed.

(** X18: a failure of [os.makedirs] other than [FileExistsError] (a
    regular file in the way, a denied directory) is caught by neither
    method: [download_file] and [write_file] raise it, before any
    request is sent, and no file is written. *)
Theorem makedirs_failure_propagates (self : Element) (w w' : World)
    (e : os_error) :
  Py.truthy (file_path self) = true ->
  os_path_exists (file_path self) w = false ->
  os_makedirs (OsPath.dirname (file_path self)) w = (Raise (OSError e), w') ->
  e <> FileExistsError ->
  download_file self w = (Raise (OSError e), w') /\
  (forall body, write_file self body w = (Raise (OSError e), w')) /\
  fs_files w' = fs_files w /\ download_size w' = download_size w.
Proof.
  intros Ht He Em Hne.
  assert (P : prepare_location (file_path self) w = (Raise (OSError e), w')).
  { unfold prepare_location. rewrite He. unfold try_except, bind. rewrite Em.
    destruct e; try reflexivity. contradiction. }
  split; [|split].
  - unfold download_file. rewrite Ht. cbn [negb]. unfold bind at 1.
    rewrite P. reflexivity.
  - intros body. unfold write_file. rewrite Ht. cbn [negb]. unfold bind at 1.
    rewrite P. reflexivity.
  - destruct (os_makedirs_cases (OsPath.dirname (file_path self)) w)
      as (dirs & [[e' E]|E]); rewrite E in Em; inversion Em; split; reflexivity.
Qed.

Lemma get_with_fs (u : string) (w : World) f d :
  get u (with_fs f d w) = (fst (get u w), with_fs f d (snd (get u w))).
Proof.
  unfold get. cbn [SESSION_get with_fs download_size].
  destruct (SESSION_get w u) as [resp|e].
  - destruct (content_length resp) as [[n|]|]; reflexivity.
  - destruct e; try reflexivity.
    destruct response as [resp|]; cbn [not_response];
      [destruct (negb (ok resp))|]; reflexivity.
Qed.

(** [download_file] up to the extension check, with the world it has
    reached. *)
Lemma download_file_steps (self : Element) (w w1 : World) (req : Response) :
  Py.truthy (file_path self) = true ->
  may_write (file_path self) w ->
  get (url self) w = (Ret req, w1) -> ok req = true ->
  cache_sound w ->
  exists dirs c,
    let w2 := with_cache c (with_fs (fs_files w) dirs w1) in
    can_open (file_path self) w2 /\ cache_sound w2 /\
    download_file self w =
      (let allowed :=
         is_allowed_body (allowed_file_ext w) (snd (OsPath.splitext (file_path self))) in
       let! proceed :=
         (if negb allowed then
            if opt_truthy (default_fileext self)
            then raise (AttributeError "'list' object has no attribute 'extends'")
            else
              let! found :=
                first_allowed
                  (guess_all_extensions
                     (Py.split_semicolon_0 (default EmptyString (content_type req)))) in
              ret (bool_decide (is_Some found))
          else ret true) in
       if negb proceed then ret tt
       else write_with_watermark (file_path self) (url self) (content req)) w2.
Proof.
  intros Ht Hm G Ok Hs.
  destruct (prepare_location_ready _ _ Hm) as (dirs & Ep & Hopen).
  destruct (get_frame _ _ _ _ G) as (n & ->).
  assert (G1 : get (url self) (with_fs (fs_files w) dirs w)
               = (Ret req, with_fs (fs_files w) dirs (with_download_size n w))).
  { rewrite get_with_fs, G. reflexivity. }
  set (w1 := with_fs (fs_files w) dirs (with_download_size n w)) in *.
  assert (Hs1 : cache_sound w1) by exact Hs.
  destruct (is_allowed_sound (snd (OsPath.splitext (file_path self))) w1 Hs1)
    as (c & Ea & _ & Hs2 & _).
  exists dirs, c. cbv zeta. split; [exact Hopen|]. split; [exact Hs2|].
  unfold download_file. rewrite Ht. cbn [negb].
  unfold bind at 1. rewrite Ep. cbn [negb].
  unfold bind at 1. rewrite G1. rewrite Ok. cbn [negb].
  unfold bind at 1. rewrite Ea.
  reflexivity.
Qed.

(** X9: [download_file] on an element whose extension is allowed and whose
    file may be written: the body of any response with a good status is
    stored at the file path, followed by the watermark of the URL; the
    byte counter is the one [get] left. *)
Theorem download_file_stores_fetched_content (self : Element) (w w1 : World)
    (req : Response) :
  Py.truthy (file_path self) = true ->
  may_write (file_path self) w ->
  get (url self) w = (Ret req, w1) -> ok req = true ->
  cache_sound w ->
  is_allowed_body (allowed_file_ext w) (snd (OsPath.splitext (file_path self))) = true ->
  exists w',
    download_file self w = (Ret tt, w') /\
    fs_files w' !! file_path self
      = Some (content req ++ watermark_at (utcnow w) (url self))%string /\
    download_size w' = download_size w1 /\
    threads w' = threads w.
Proof.
  intros Ht Hm G Ok Hs Ha.
  destruct (download_file_steps self w w1 req Ht Hm G Ok Hs)
    as (dirs & c & Hopen & _ & E).
  destruct (get_frame _ _ _ _ G) as (n & ->).
  cbv zeta in *. rewrite E, Ha. cbn [negb]. unfold bind at 1, ret at 1.
  cbn [negb]. rewrite (write_with_watermark_ok _ _ _ _ Hopen).
  eexists. split; [reflexivity|].
  cbn [fs_files with_fs utcnow with_cache with_download_size download_size threads].
  rewrite lookup_insert_eq. auto.
Qed.

(** The [for ... else] loop under a sound table: it finds the first
    candidate that the allow-list admits. *)
Lemma first_allowed_sound (exts : list string) (w : World) :
  cache_sound w ->
  exists c,
    first_allowed exts w
      = (Ret (find (is_allowed_body (allowed_file_ext w)) exts), with_cache c w) /\
    cache_sound (with_cache c w).
Proof.
  revert w. induction exts as [|ext rest IH]; intros w Hs; cbn [first_allowed find].
  - exists (is_allowed_cache w). split; [|exact Hs].
    unfold ret. destruct w; reflexivity.
  - destruct (is_allowed_sound ext w Hs) as (c & E & _ & Hs1 & _).
    unfold bind. rewrite E.
    destruct (is_allowed_body (allowed_file_ext w) ext).
    + exists c. split; [reflexivity | exact Hs1].
    + destruct (IH (with_cache c w) Hs1) as (c' & E' & Hs').
      exists c'. split; [exact E' | exact Hs'].
Qed.

Lemma find_Exists {A} (f : A -> bool) (l : list A) :
  List.Exists (fun x => f x = true) l -> is_Some (find f l).
Proof.
  induction 1 as [x l Hx | x l _ IH]; cbn [find].
  - rewrite Hx. eexists. reflexivity.
  - destruct (f x); [eexists; reflexivity | exact IH].
Qed.

Lemma find_Forall {A} (f : A -> bool) (l : list A) :
  List.Forall (fun x => f x = false) l -> find f l = None.
Proof.
  induction 1 as [|x l Hx _ IH]; cbn [find]; [reflexivity|].
  rewrite Hx. exact IH.
Qed.

(** X10: the fallback for an element without a default extension, when the
    extension of its file path is not allowed: if some extension guessed
    from the content type is allowed, the body is stored, under the file
    path as it was; if none is, nothing is written.  The method returns
    normally either way. *)
Theorem download_file_content_type_fallback (self : Element) (w w1 : World)
    (req : Response) :
  Py.truthy (file_path self) = true ->
  may_write (file_path self) w ->
  get (url self) w = (Ret req, w1) -> ok req = true ->
  cache_sound w ->
  is_allowed_body (allowed_file_ext w) (snd (OsPath.splitext (file_path self))) = false ->
  opt_truthy (default_fileext self) = false ->
  let candidates :=
    guess_all_extensions
      (Py.split_semicolon_0 (default EmptyString (content_type req))) in
  exists w',
    download_file self w = (Ret tt, w') /\
    (List.Exists (fun ext => is_allowed_body (allowed_file_ext w) ext = true) candidates ->
       fs_files w' !! file_path self
         = Some (content req ++ watermark_at (utcnow w) (url self))%string) /\
    (List.Forall (fun ext => is_allowed_body (allowed_file_ext w) ext = false) candidates ->
       fs_files w' = fs_files w).
Proof.
  intros Ht Hm G Ok Hs Ha Hd. cbv zeta.
  destruct (download_file_steps self w w1 req Ht Hm G Ok Hs)
    as (dirs & c & Hopen & Hs2 & E).
  destruct (get_frame _ _ _ _ G) as (n & ->).
  cbv zeta in *. rewrite E, Ha, Hd. cbn [negb].
  set (w2 := with_cache c (with_fs (fs_files w) dirs (with_download_size n w))) in *.
  set (cands := guess_all_extensions _).
  destruct (first_allowed_sound cands w2 Hs2) as (c' & Ef & _).
  unfold bind at 1. unfold bind at 1. rewrite Ef. unfold ret at 1.
  change (allowed_file_ext w2) with (allowed_file_ext w).
  destruct (find (is_allowed_body (allowed_file_ext w)) cands) as [ext|] eqn:F.
  - rewrite bool_decide_eq_true_2 by (eexists; reflexivity). cbn [negb].
    assert (Hopen' : can_open (file_path self) (with_cache c' w2)) by exact Hopen.
    rewrite (write_with_watermark_ok _ _ _ _ Hopen').
    eexists. split; [reflexivity|]. split.
    + intros _. cbn [fs_files with_fs utcnow with_cache with_download_size w2].
      apply lookup_insert_eq.
    + intros Hall. apply find_Forall in Hall. congruence.
  - rewrite bool_decide_eq_false_2 by apply is_Some_None. cbn [negb].
    eexists. split; [reflexivity|]. split.
    + intros Hex. apply find_Exists in Hex. rewrite F in Hex.
      destruct Hex as [x Hx]. discriminate.
    + intros _. reflexivity.
Qed.

Lemma prepare_location_frame (fp : string) (w : World) :
  exists dirs, snd (prepare_location fp w) = with_fs (fs_files w) dirs w.
Proof.
  assert (Id : w = with_fs (fs_files w) (fs_dirs w) w) by (destruct w; reflexivity).
  unfold prepare_location.
  destruct (os_path_exists fp w).
  - exists (fs_dirs w). destruct (negb (over_write w)); exact Id.
  - unfold try_except, bind.
    destruct (os_makedirs_cases (OsPath.dirname fp) w) as (dirs & [[e E]|E]);
      rewrite E; exists dirs.
    + destruct (is_FileExistsError (OSError e)); reflexivity.
    + reflexivity.
Qed.

(** X11: [write_file] on an element whose extension is not allowed writes no
    file, in whatever state the disk is. *)
Theorem write_file_disallowed_writes_nothing (self : Element) (body : string)
    (w : World) :
  cache_sound w ->
  is_allowed_body (allowed_file_ext w) (snd (OsPath.splitext (file_path self))) = false ->
  fs_files (snd (write_file self body w)) = fs_files w.
Proof.
  intros Hs Ha. unfold write_file.
  destruct (negb (Py.truthy (file_path self))); [reflexivity|].
  unfold bind at 1.
  destruct (prepare_location_frame (file_path self) w) as (dirs & F).
  destruct (prepare_location (file_path self) w) as [[go|e] w1]; cbn [snd] in F;
    subst w1; [|reflexivity].
  destruct go; cbn [negb]; [|reflexivity].
  assert (Hs1 : cache_sound (with_fs (fs_files w) dirs w)) by exact Hs.
  destruct (is_allowed_sound (snd (OsPath.splitext (file_path self))) _ Hs1)
    as (c & E & _).
  unfold bind. rewrite E.
  change (allowed_file_ext (with_fs (fs_files w) dirs w)) with (allowed_file_ext w).
  rewrite Ha. reflexivity.
Qed.

(** The world that a successful [write_file] leaves. *)
Lemma write_file_world (self : Element) (body : string) (w : World) :
  Py.truthy (file_path self) = true ->
  may_write (file_path self) w ->
  cache_sound w ->
  is_allowed_body (allowed_file_ext w) (snd (OsPath.splitext (file_path self))) = true ->
  exists dirs c,
    write_file self body w
      = (Ret tt,
         with_fs (<[file_path self := (body ++ watermark_at (utcnow w) (url self))%string]>
                    (fs_files w)) dirs (with_cache c w)).
Proof.
  intros Ht Hm Hs Ha.
  destruct (prepare_location_ready _ _ Hm) as (dirs & Ep & Hopen).
  assert (Hs1 : cache_sound (with_fs (fs_files w) dirs w)) by exact Hs.
  destruct (is_allowed_sound (snd (OsPath.splitext (file_path self))) _ Hs1)
    as (c & E & _).
  unfold write_file. rewrite Ht. cbn [negb].
  unfold bind at 1. rewrite Ep. cbn [negb].
  unfold bind at 1. rewrite E.
  change (allowed_file_ext (with_fs (fs_files w) dirs w)) with (allowed_file_ext w).
  rewrite Ha. cbn [negb].
  assert (Hopen' : can_open (file_path self)
                     (with_cache c (with_fs (fs_files w) dirs w))) by exact Hopen.
  rewrite (write_with_watermark_ok _ _ _ _ Hopen').
  exists dirs, c. reflexivity.
Qed.

(** X12: [write_file] on an element whose extension is allowed and whose
    file may be written stores the body it is given, followed by the
    watermark of the URL; the byte counter and the threads are as
    before. *)
Theorem write_file_stores_body (self : Element) (body : string) (w : World) :
  Py.truthy (file_path self) = true ->
  may_write (file_path self) w ->
  cache_sound w ->
  is_allowed_body (allowed_file_ext w) (snd (OsPath.splitext (file_path self))) = true ->
  exists w',
    write_file self body w = (Ret tt, w') /\
    fs_files w' !! file_path self
      = Some (body ++ watermark_at (utcnow w) (url self))%string /\
    download_size w' = download_size w /\ threads w' = threads w.
Proof.
  intros Ht Hm Hs Ha.
  destruct (write_file_world self body w Ht Hm Hs Ha) as (dirs & c & E).
  rewrite E. eexists. split; [reflexivity|].
  cbn [fs_files with_fs download_size threads with_cache].
  rewrite lookup_insert_eq. auto.
Qed.


(** ** Further properties of the stylesheet resolver *)

Lemma set_files_same (self : Element) : set_files (files self + 0) self = self.
Proof. destruct self. unfold set_files. cbn. rewrite Nat.add_0_r. reflexivity. Qed.

Lemma with_threads_same (w : World) : with_threads (threads w ++ []) w = w.
Proof. destruct w. unfold with_threads. cbn. rewrite app_nil_r. reflexivity. Qed.

Lemma set_files_set_files (k : nat) (self : Element) :
  set_files (files (set_files (files self + 1) self) + k) (set_files (files self + 1) self)
    = set_files (files self + S k) self.
Proof. unfold set_files. cbn. f_equal. lia. Qed.

(** What a pass makes of a buffer depends on the element only through
    its URL, its base path and its file path, and on the world only
    through [config['project_folder']]. *)
Lemma segment_text_frame (self self1 : Element) (w w1 : World) (seg : Segment) :
  url self1 = url self -> base_path self1 = base_path self ->
  file_path self1 = file_path self -> project_folder w1 = project_folder w ->
  segment_text self1 w1 seg = segment_text self w seg /\
  forall u, child_of self1 u w1 = child_of self u w.
Proof.
  intros Hu Hb Hf Hp.
  assert (C : forall u, child_of self1 u w1 = child_of self u w).
  { intros u. unfold child_of, child_base_path. rewrite Hu, Hb, Hp. reflexivity. }
  split; [|exact C].
  destruct seg as [s|m]; cbn [segment_text]; [reflexivity|].
  rewrite C, Hf. reflexivity.
Qed.

Lemma rewrite_pass_frame (self self1 : Element) (w w1 : World)
    (segs : list Segment) :
  url self1 = url self -> base_path self1 = base_path self ->
  file_path self1 = file_path self -> project_folder w1 = project_folder w ->
  rewrite_pass self1 w1 segs = rewrite_pass self w segs.
Proof.
  intros Hu Hb Hf Hp. unfold rewrite_pass.
  induction segs as [|seg rest IH]; cbn [fold_right]; [reflexivity|].
  rewrite IH. rewrite (proj1 (segment_text_frame self self1 w w1 seg Hu Hb Hf Hp)).
  reflexivity.
Qed.

Lemma children_frame (self self1 : Element) (w w1 : World)
    (segs : list Segment) :
  url self1 = url self -> base_path self1 = base_path self ->
  file_path self1 = file_path self -> project_folder w1 = project_folder w ->
  children self1 w1 segs = children self w segs.
Proof.
  intros Hu Hb Hf Hp.
  induction segs as [|[s|m] rest IH]; cbn [children]; [reflexivity | exact IH |].
  rewrite IH.
  rewrite (proj2 (segment_text_frame self self1 w w1 (Text EmptyString) Hu Hb Hf Hp)).
  reflexivity.
Qed.

Lemma decode_is_Some (b : string) :
  bool_decide (is_Some (Py.decode b)) = Py.utf8_valid b.
Proof.
  unfold Py.decode. destruct (Py.utf8_valid b).
  - apply bool_decide_eq_true_2. eexists. reflexivity.
  - apply bool_decide_eq_false_2, is_Some_None.
Qed.

Lemma started_names (kids : list Element) :
  map fst (map (fun e => (e, Started)) kids) = kids.
Proof.
  induction kids as [|e rest IH]; cbn [map fst]; [reflexivity|].
  rewrite IH. reflexivity.
Qed.

(** A pass that starts no child meets no reference that it decodes. *)
Lemma children_nil_decodable (self : Element) (w : World) (segs : list Segment) :
  children self w segs = [] -> decodable segs = true.
Proof.
  induction segs as [|[s|m] rest IH]; cbn [children decodable];
    [reflexivity | exact IH |].
  destruct (String.eqb (Py.slice_to 4 (group1 m)) "data"); [exact IH | discriminate].
Qed.

(** One [sub] pass with [repl] over references that decode, in closed
    form. *)
Lemma re_sub_equation (self : Element) (segs : list Segment) (w : World) :
  decodable segs = true ->
  re_sub self segs w
    = (Ret (rewrite_pass self w segs,
            set_files (files self + length (children self w segs)) self),
       with_threads
         (threads w ++ map (fun e => (e, Started)) (children self w segs)) w).
Proof.
  revert self w. induction segs as [|[s|m] rest IH]; intros self w Hd.
  - cbn [re_sub rewrite_pass fold_right children length map].
    rewrite set_files_same, with_threads_same. reflexivity.
  - cbn [re_sub rewrite_pass fold_right children segment_text].
    unfold bind. rewrite (IH _ _ Hd). reflexivity.
  - cbn [decodable] in Hd. apply andb_true_iff in Hd. destruct Hd as [Hm Hr].
    cbn [re_sub rewrite_pass fold_right children segment_text].
    unfold bind at 1.
    destruct (String.eqb (Py.slice_to 4 (group1 m)) "data") eqn:E.
    + apply String.eqb_eq in E. rewrite (repl_data_prefix self m w E).
      unfold bind. cbn [fst snd]. rewrite (IH _ _ Hr). reflexivity.
    + cbn [orb] in Hm. rewrite decode_is_Some in Hm.
      apply String.eqb_neq in E. rewrite (repl_reference self m w E Hm).
      unfold bind. cbn [fst snd]. rewrite (IH _ _ Hr).
      cbn [length map threads with_threads].
      rewrite (children_frame self (set_files (files self + 1) self) w
                 (with_threads (threads w ++ [(child_of self (group1 m) w, Started)]) w)
                 rest eq_refl eq_refl eq_refl eq_refl).
      rewrite (rewrite_pass_frame self (set_files (files self + 1) self) w
                 (with_threads (threads w ++ [(child_of self (group1 m) w, Started)]) w)
                 rest eq_refl eq_refl eq_refl eq_refl).
      rewrite set_files_set_files. unfold ret. cbn [fst snd].
      rewrite <- app_assoc. reflexivity.
Qed.

(** A reference that does not decode ends the pass with the
    [UnicodeDecodeError] of [url.decode()]. *)
Lemma re_sub_undecodable (self : Element) (segs : list Segment) (w : World) :
  decodable segs = false ->
  exists w', re_sub self segs w = (Raise UnicodeDecodeError, w').
Proof.
  revert self w. induction segs as [|[s|m] rest IH]; intros self w Hd.
  - discriminate.
  - cbn [decodable] in Hd. cbn [re_sub]. unfold bind.
    destruct (IH self w Hd) as (w' & E). rewrite E. eexists. reflexivity.
  - cbn [decodable] in Hd. cbn [re_sub]. unfold bind at 1.
    destruct (String.eqb (Py.slice_to 4 (group1 m)) "data") eqn:E.
    + cbn [orb andb] in Hd. apply String.eqb_eq in E.
      rewrite (repl_data_prefix self m w E). cbn [fst snd]. unfold bind.
      destruct (IH self w Hd) as (w' & E'). rewrite E'. eexists. reflexivity.
    + cbn [orb] in Hd. rewrite decode_is_Some in Hd. apply String.eqb_neq in E.
      destruct (Py.utf8_valid (group1 m)) eqn:V.
      * cbn [andb] in Hd. rewrite (repl_reference self m w E V). cbn [fst snd].
        unfold bind.
        match goal with
        | |- context [re_sub ?s rest ?v] => destruct (IH s v Hd) as (w' & E')
        end.
        rewrite E'. eexists. reflexivity.
      * rewrite (repl_undecodable self m w E V). eexists. reflexivity.
Qed.

(** X14: one [sub] pass with [repl] over a buffer whose references
    decode: unmatched text stays and every match is replaced by what
    [repl] returns for it; the counter [files] grows by the number of
    references that are no [data] URLs, one child is started for each
    of them, in the order of the buffer, and the element's other
    attributes are as before. *)
Theorem re_sub_rewrites_and_starts_children (self : Element)
    (segs : list Segment) (w : World) :
  decodable segs = true ->
  exists self' w',
    re_sub self segs w = (Ret (rewrite_pass self w segs, self'), w') /\
    files self' = (files self + length (children self w segs))%nat /\
    map fst (threads w') = map fst (threads w) ++ children self w segs /\
    url self' = url self /\ file_path self' = file_path self /\
    contents self' = contents self.
Proof.
  intros Hd. rewrite (re_sub_equation _ _ _ Hd).
  eexists. eexists. split; [reflexivity|]. split; [reflexivity|]. split.
  - cbn [threads with_threads]. rewrite map_app, started_names. reflexivity.
  - repeat split.
Qed.

Lemma re_sub_framed (self self1 : Element) (w w1 : World) (segs : list Segment) :
  url self1 = url self -> base_path self1 = base_path self ->
  file_path self1 = file_path self -> project_folder w1 = project_folder w ->
  decodable segs = true ->
  re_sub self1 segs w1
    = (Ret (rewrite_pass self w segs,
            set_files (files self1 + length (children self w segs)) self1),
       with_threads
         (threads w1 ++ map (fun e => (e, Started)) (children self w segs)) w1).
Proof.
  intros Hu Hb Hf Hp Hd. rewrite (re_sub_equation _ _ _ Hd).
  rewrite (rewrite_pass_frame self self1 w w1 segs Hu Hb Hf Hp).
  rewrite (children_frame self self1 w w1 segs Hu Hb Hf Hp).
  reflexivity.
Qed.

(** X15: a stylesheet whose fetch comes back with an error status is given
    up: [LinkTag.run] returns with the element as it was, starts no
    child and writes no file; only the byte counter may have moved. *)
Theorem LinkTag_run_error_status_gives_up (self : Element) (w w1 : World)
    (req : Response) :
  Py.endswith (file_name self) ".css" = true ->
  get (url self) w = (Ret req, w1) -> ok req = false ->
  LinkTag_run self w = (Ret self, w1) /\
  fs_files w1 = fs_files w /\ threads w1 = threads w.
Proof.
  intros Hc G Ok. unfold LinkTag_run. rewrite Hc. cbn [negb].
  unfold bind at 1. unfold ret at 1. unfold bind at 1. rewrite G, Ok.
  cbn [negb]. destruct (get_frame _ _ _ _ G) as (n & ->).
  repeat split.
Qed.



(** The world that a successful [download_file] leaves. *)
Lemma download_file_world (self : Element) (w w1 : World) (req : Response) :
  Py.truthy (file_path self) = true ->
  may_write (file_path self) w ->
  get (url self) w = (Ret req, w1) -> ok req = true ->
  cache_sound w ->
  is_allowed_body (allowed_file_ext w) (snd (OsPath.splitext (file_path self))) = true ->
  exists dirs c,
    download_file self w
      = (Ret tt,
         with_fs (<[file_path self := (content req ++ watermark_at (utcnow w) (url self))%string]>
                    (fs_files w)) dirs (with_cache c w1)).
Proof.
  intros Ht Hm G Ok Hs Ha.
  destruct (download_file_steps self w w1 req Ht Hm G Ok Hs)
    as (dirs & c & Hopen & _ & E).
  destruct (get_frame _ _ _ _ G) as (n & ->).
  cbv zeta in *. rewrite E, Ha. cbn [negb]. unfold bind at 1, ret at 1.
  cbn [negb]. rewrite (write_with_watermark_ok _ _ _ _ Hopen).
  exists dirs, c. reflexivity.
Qed.

(** X17: a link that is no stylesheet (a favicon, say) and in which the
    two passes find nothing to fetch is itself fetched twice:
    [LinkTag.run] downloads it through [FileMixin.run] and then goes on
    as for a stylesheet, with a second request.  The byte counter grows
    by twice the declared length, no thread is started, and with
    overwriting disabled the file keeps the body of the first request:
    what the two passes leave is dropped. *)
Theorem LinkTag_run_fetches_other_links_twice (self : Element) (w : World)
    (req : Response) (n : Z) :
  Py.endswith (file_name self) ".css" = false ->
  Py.truthy (file_path self) = true ->
  may_write (file_path self) w -> over_write w = false ->
  SESSION_get w (url self) = Ret req -> content_length req = Some (Some n) ->
  ok req = true ->
  cache_sound w ->
  is_allowed_body (allowed_file_ext w) (snd (OsPath.splitext (file_path self))) = true ->
  children self w (CSS_URLS_RE (content req)) = [] ->
  children self w
    (CSS_IMPORTS_RE (rewrite_pass self w (CSS_URLS_RE (content req)))) = [] ->
  exists self' w',
    LinkTag_run self w = (Ret self', w') /\
    download_size w' = download_size w + n + n /\
    threads w' = threads w /\
    fs_files w' !! file_path self
      = Some (content req ++ watermark_at (utcnow w) (url self))%string.
Proof.
  intros Hc Ht Hm Hov Hnet Hlen Ok Hs Ha K1 K2.
  pose proof (children_nil_decodable _ _ _ K1) as D1.
  pose proof (children_nil_decodable _ _ _ K2) as D2.
  pose proof (proj1 (proj2 (get_counts_declared_length _ _ _ Hnet)) n Hlen) as G.
  destruct (download_file_world self w _ req Ht Hm G Ok Hs Ha) as (dirs & c & Ed).
  unfold LinkTag_run. rewrite Hc. cbn [negb].
  unfold bind at 1. rewrite Ed. unfold bind at 1.
  match goal with
  | |- context [get (url self) ?W] =>
      assert (G2 : get (url self) W
                   = (Ret req, with_download_size (download_size w + n + n) W))
        by (unfold get; cbn [SESSION_get with_fs with_cache with_download_size
                             download_size];
            rewrite Hnet, Hlen; reflexivity);
      rewrite G2
  end.
  rewrite Ok. cbn [negb]. unfold bind at 1.
  change (contents (set_contents (content req) self)) with (content req).
  match goal with
  | |- context [re_sub ?s ?segs ?W] =>
      rewrite (re_sub_framed self s w W segs eq_refl eq_refl eq_refl eq_refl D1)
  end.
  rewrite K1. cbn [fst snd length map]. rewrite app_nil_r.
  unfold bind at 1.
  match goal with
  | |- context [re_sub ?s ?segs ?W] =>
      change segs
        with (CSS_IMPORTS_RE (rewrite_pass self w (CSS_URLS_RE (content req))));
      rewrite (re_sub_framed self s w W _ eq_refl eq_refl eq_refl eq_refl D2)
  end.
  rewrite K2. cbn [fst snd length map]. rewrite app_nil_r.
  unfold bind at 1.
  match goal with
  | |- context [write_file ?s ?b ?W] =>
      assert (Ew : write_file s b W = (Ret tt, W));
      [ apply (write_file_existing s b W);
        [ exact Ht
        | unfold os_path_exists;
          cbn [fs_files with_threads with_download_size with_fs];
          rewrite lookup_insert_eq;
          rewrite bool_decide_eq_true_2 by (eexists; reflexivity); reflexivity
        | exact Hov ]
      | rewrite Ew ]
  end.
  eexists. eexists. split; [reflexivity|]. split; [reflexivity|]. split.
  - cbn [threads with_threads with_download_size with_fs with_cache].
    reflexivity.
  - cbn [fs_files with_threads with_download_size with_fs].
    apply lookup_insert_eq.
Qed.


End Properties.

(** * Worked cases *)

Lemma C10_new_file_content_only_case :
  new_file (H := Scenario.imports) "site/index.html" None (Some "<html></html>"%string)
      Scenario.online
    = (Raise (AssertionError "File url must be a string!"), Scenario.online).
Proof.
  apply (C10_new_file_content_only_raises (H := Scenario.imports)
           "site/index.html" "<html></html>" Scenario.online); reflexivity.
Defined.




(** C7 on a page saved from a URL that ends in [.html]. *)
Lemma C7_watermark_follows_source_case :
  let w' := snd (new_file (H := Scenario.imports) "site/index.html"
                   (Some "http://h/x.html"%string) None Scenario.online) in
  exists body mark,
    fs_files w' !! "site/index.html"%string = Some (body ++ mark)%string /\
    body = content Scenario.page /\
    mark = MARK_format (Package := Scenario.imports) "<!--!"
             (VERSION (Package := Scenario.imports)) "http://h/x.html"
             (utcnow Scenario.online) "-->".
Proof.
  cbv zeta.
  destruct (C7_watermark_follows_source (H := Scenario.imports)
              "site/index.html" "http://h/x.html" None Scenario.online
              (snd (new_file (H := Scenario.imports) "site/index.html"
                      (Some "http://h/x.html"%string) None Scenario.online))
              eq_refl)
    as (body & mark & F & _ & Hb & Hm & _).
  - vm_compute. reflexivity.
  - exists body, mark. split; [exact F|]. split.
    + destruct (Hb eq_refl) as (req & G & _ & ->).
      vm_compute in G. injection G as <-. reflexivity.
    + apply Hm. vm_compute. tauto.
Defined.

(** C7 as stated fails: a file named [index.html] is written from the
    URL [http://h/], whose path has no extension, and gets no watermark,
    though the markup watermark of an [.html] file is not empty. *)
Lemma C7_html_file_without_watermark :
  let r := new_file (H := Scenario.imports) "site/index.html"
             (Some "http://h/"%string) None Scenario.online in
  fst r = Ret (Some "site/index.html"%string) /\
  Py.lower (snd (OsPath.splitext "site/index.html")) = ".html"%string /\
  fs_files (snd r) !! "site/index.html"%string = Some (content Scenario.page) /\
  watermark_at (H := Scenario.imports) (utcnow Scenario.online) "site/index.html"
    <> EmptyString.
Proof. vm_compute. repeat split. discriminate. Qed.

(** On an empty disk a file may be written as soon as [os.makedirs]
    makes its directory. *)
Lemma may_write_fresh (fp : string) (w : World) :
  fs_files w = ∅ -> fs_dirs w = ∅ -> fs_denied w = ∅ ->
  is_root fp = false -> trailing_sep fp = false ->
  Py.truthy (OsPath.dirname fp) = true -> is_root (OsPath.dirname fp) = false ->
  fst (os_makedirs (OsPath.dirname fp) w) = Ret tt ->
  os_path_isdir (OsPath.dirname fp) (snd (os_makedirs (OsPath.dirname fp) w)) = true ->
  may_write fp w.
Proof.
  intros Hf Hd Hn Hr Ht Hdt Hdr Hok Hdir.
  unfold may_write, directory_ready.
  split; [rewrite Hf, lookup_empty; intros [x Hx]; discriminate|].
  split; [unfold os_path_isdir; rewrite Hd, Hr;
          apply bool_decide_eq_false_2, not_elem_of_empty|].
  split; [exact Ht|].
  split; [rewrite Hn; apply not_elem_of_empty|]. split; [exact Hdt|].
  right. split; [rewrite Hf; apply lookup_empty|].
  split; [|split; [exact Hok | exact Hdir]].
  unfold os_path_exists, os_path_isdir. rewrite Hf, Hd, Hdr, lookup_empty.
  apply orb_false_intro; apply bool_decide_eq_false_2;
    [apply is_Some_None | apply not_elem_of_empty].
Defined.



(** C8 on an image whose URL has no extension. *)
Lemma C8_extension_fallback_case :
  exists w',
    download_file (H := Scenario.imports) Scenario.picture Scenario.online
      = (Raise (AttributeError "'list' object has no attribute 'extends'"), w') /\
    fs_files w' = fs_files Scenario.online.
Proof.
  exact (C8_extension_fallback_raises (H := Scenario.imports) Scenario.picture
           Scenario.online Scenario.page eq_refl
           (may_write_fresh "site/pic" Scenario.online
              eq_refl eq_refl eq_refl eq_refl eq_refl eq_refl eq_refl
              eq_refl eq_refl)
           eq_refl eq_refl
           (cache_sound_empty Scenario.online eq_refl) eq_refl eq_refl).
Defined.




(** ** Worked cases of the further properties *)

Lemma new_file_disallowed_extension_case :
  exists c,
    new_file (H := Scenario.imports) "site/a.exe" (Some "http://h/a.exe"%string)
      None Scenario.online = (Ret None, with_cache c Scenario.online).
Proof.
  exact (new_file_disallowed_extension (H := Scenario.imports)
           "site/a.exe" "http://h/a.exe" "exe" None Scenario.online
           eq_refl eq_refl eq_refl
           (cache_sound_empty Scenario.online eq_refl) eq_refl).
Defined.

Lemma new_file_location_without_dot_case :
  new_file (H := Scenario.imports) "site/readme" (Some "http://h/readme"%string)
    None Scenario.online = (Raise IndexError, Scenario.online).
Proof.
  exact (new_file_location_without_dot (H := Scenario.imports)
           "site/readme" "http://h/readme" None Scenario.online
           eq_refl eq_refl eq_refl).
Defined.

Lemma disk_sane_online : disk_sane Scenario.online.
Proof. split; [apply lookup_empty | apply not_elem_of_empty]. Defined.

Lemma new_file_bare_name_case :
  fs_files (snd (new_file (H := Scenario.imports) "index.html"
                   (Some "http://h/"%string) None Scenario.online))
    = fs_files Scenario.online /\
  forall p, fst (new_file (H := Scenario.imports) "index.html"
                   (Some "http://h/"%string) None Scenario.online)
            <> Ret (Some p).
Proof.
  exact (new_file_bare_name_writes_nothing (H := Scenario.imports)
           "index.html" (Some "http://h/"%string) None Scenario.online
           eq_refl disk_sane_online eq_refl).
Defined.

Lemma new_file_stores_fetched_content_case :
  exists w',
    new_file (H := Scenario.imports) "site/index.html"
      (Some "http://h/x.html"%string) None Scenario.online
      = (Ret (Some "site/index.html"%string), w') /\
    fs_files w' !! "site/index.html"%string
      = Some (content Scenario.page ++
              watermark_at (H := Scenario.imports) (utcnow Scenario.online)
                "http://h/x.html")%string.
Proof.
  exact (new_file_stores_fetched_content (H := Scenario.imports)
           "site/index.html" "http://h/x.html" "html" None Scenario.page
           Scenario.online eq_refl eq_refl eq_refl eq_refl
           (cache_sound_empty Scenario.online eq_refl) eq_refl eq_refl
           (may_write_fresh "site/index.html" Scenario.online
              eq_refl eq_refl eq_refl eq_refl eq_refl eq_refl eq_refl eq_refl eq_refl)
           eq_refl eq_refl).
Defined.

Lemma new_file_failed_redownload_case :
  exists w',
    new_file (H := Scenario.imports) "site/a.css" (Some "http://h/a.css"%string)
      None Scenario.mirrored_gone = (Ret None, w') /\
    fs_files w' !! "site/a.css"%string = None.
Proof.
  exact (new_file_failed_redownload_loses_file (H := Scenario.imports)
           "site/a.css" "http://h/a.css" "css" "old" None
           (Scenario.response 404 "Not Found" None) Scenario.mirrored_gone
           eq_refl eq_refl eq_refl eq_refl
           (cache_sound_empty Scenario.mirrored_gone eq_refl)
           eq_refl eq_refl eq_refl eq_refl eq_refl).
Defined.

Lemma existing_file_is_skipped_case :
  download_file (H := Scenario.imports) Scenario.old_stylesheet Scenario.mirrored
    = (Ret tt, Scenario.mirrored) /\
  forall body,
    write_file (H := Scenario.imports) Scenario.old_stylesheet body Scenario.mirrored
      = (Ret tt, Scenario.mirrored).
Proof.
  exact (existing_file_is_skipped (H := Scenario.imports)
           Scenario.old_stylesheet Scenario.mirrored eq_refl eq_refl eq_refl).
Defined.

Lemma bare_file_path_raises_case :
  download_file (H := Scenario.imports) Scenario.bare Scenario.online
    = (Raise (OSError FileNotFoundError), Scenario.online) /\
  forall body,
    write_file (H := Scenario.imports) Scenario.bare body Scenario.online
      = (Raise (OSError FileNotFoundError), Scenario.online).
Proof.
  exact (bare_file_path_raises (H := Scenario.imports)
           Scenario.bare Scenario.online eq_refl eq_refl eq_refl).
Defined.

Lemma download_file_stores_fetched_content_case :
  exists w',
    download_file (H := Scenario.imports) Scenario.logo Scenario.online = (Ret tt, w') /\
    fs_files w' !! "site/img/a.png"%string
      = Some (content Scenario.page ++
              watermark_at (H := Scenario.imports) (utcnow Scenario.online)
                "http://h/a.png")%string /\
    download_size w' = download_size Scenario.online /\
    threads w' = threads Scenario.online.
Proof.
  exact (download_file_stores_fetched_content (H := Scenario.imports)
           Scenario.logo Scenario.online Scenario.online Scenario.page eq_refl
           (may_write_fresh "site/img/a.png" Scenario.online
              eq_refl eq_refl eq_refl eq_refl eq_refl eq_refl eq_refl eq_refl eq_refl)
           eq_refl eq_refl (cache_sound_empty Scenario.online eq_refl) eq_refl).
Defined.

Lemma download_file_content_type_fallback_case :
  exists w',
    download_file (H := Scenario.imports) Scenario.extensionless
      Scenario.serving_image = (Ret tt, w') /\
    fs_files w' !! "site/pic"%string
      = Some (content Scenario.image ++
              watermark_at (H := Scenario.imports) (utcnow Scenario.serving_image)
                "http://h/pic")%string.
Proof.
  destruct (download_file_content_type_fallback (H := Scenario.imports)
              Scenario.extensionless Scenario.serving_image Scenario.serving_image
              Scenario.image eq_refl
              (may_write_fresh "site/pic" Scenario.serving_image
                 eq_refl eq_refl eq_refl eq_refl eq_refl eq_refl eq_refl eq_refl eq_refl)
              eq_refl eq_refl (cache_sound_empty Scenario.serving_image eq_refl)
              eq_refl eq_refl)
    as (w' & E & Hyes & _).
  exists w'. split; [exact E|]. apply Hyes.
  apply Exists_cons_hd. reflexivity.
Defined.

Lemma makedirs_failure_propagates_case :
  download_file (H := Scenario.imports) Scenario.logo Scenario.blocked
    = (Raise (OSError NotADirectoryError), Scenario.blocked) /\
  fs_files Scenario.blocked !! "site/img/a.png"%string = None.
Proof.
  split; [|reflexivity].
  refine (proj1 (makedirs_failure_propagates (H := Scenario.imports)
                   Scenario.logo Scenario.blocked Scenario.blocked
                   NotADirectoryError eq_refl eq_refl eq_refl _)).
  discriminate.
Defined.

(** The same disk does not let the file be written; the disk of
    [mirrored], where the folder is a directory, does. *)
Lemma may_write_blocked :
  ~ may_write "site/img/a.png" Scenario.blocked /\
  may_write "site/b.css" Scenario.mirrored.
Proof.
  split.
  - intros (_ & _ & _ & _ & _ & [(Hi & _) | (_ & _ & Hok & _)]); discriminate.
  - unfold may_write, directory_ready.
    split; [intros [x Hx]; vm_compute in Hx; discriminate|].
    split; [reflexivity|]. split; [reflexivity|].
    split; [cbn; apply not_elem_of_empty|]. split; [reflexivity|].
    left. split; reflexivity.
Qed.

Lemma write_file_disallowed_case :
  fs_files (snd (write_file (H := Scenario.imports) Scenario.program "MZ"
                   Scenario.online))
    = fs_files Scenario.online.
Proof.
  exact (write_file_disallowed_writes_nothing (H := Scenario.imports)
           Scenario.program "MZ" Scenario.online
           (cache_sound_empty Scenario.online eq_refl) eq_refl).
Defined.

Lemma write_file_stores_body_case :
  exists w',
    write_file (H := Scenario.imports) Scenario.parent "a{}" Scenario.online
      = (Ret tt, w') /\
    fs_files w' !! "site/s.css"%string
      = Some ("a{}" ++
              watermark_at (H := Scenario.imports) (utcnow Scenario.online)
                "http://h/s.css")%string /\
    download_size w' = download_size Scenario.online /\
    threads w' = threads Scenario.online.
Proof.
  exact (write_file_stores_body (H := Scenario.imports)
           Scenario.parent "a{}" Scenario.online eq_refl
           (may_write_fresh "site/s.css" Scenario.online
              eq_refl eq_refl eq_refl eq_refl eq_refl eq_refl eq_refl eq_refl eq_refl)
           (cache_sound_empty Scenario.online eq_refl) eq_refl).
Defined.


Lemma re_sub_rewrites_and_starts_children_case :
  exists self' w',
    re_sub (H := Scenario.imports) Scenario.parent
      [Text "a{background:"; Matched Scenario.logo_match; Text "}"]
      Scenario.online
      = (Ret ("a{background:url(site/img/logo.png)}"%string, self'), w') /\
    files self' = 1%nat /\
    map fst (threads w')
      = [child_of (H := Scenario.imports) Scenario.parent "img/logo.png"
           Scenario.online].
Proof.
  destruct (re_sub_rewrites_and_starts_children (H := Scenario.imports)
              Scenario.parent
              [Text "a{background:"; Matched Scenario.logo_match; Text "}"]
              Scenario.online eq_refl)
    as (self' & w' & E & F & T & _).
  exists self', w'. split; [exact E|]. split; [exact F | exact T].
Defined.

Lemma LinkTag_run_error_status_case :
  LinkTag_run (H := Scenario.imports) Scenario.parent Scenario.not_found
    = (Ret Scenario.parent, Scenario.not_found).
Proof.
  exact (proj1 (LinkTag_run_error_status_gives_up (H := Scenario.imports)
                  Scenario.parent Scenario.not_found Scenario.not_found
                  (Scenario.response 404 "Not Found" None)
                  eq_refl eq_refl eq_refl)).
Defined.


Lemma LinkTag_run_fetches_twice_case :
  exists self' w',
    LinkTag_run (H := Scenario.imports) Scenario.favicon Scenario.serving_icon
      = (Ret self', w') /\
    download_size w' = download_size Scenario.serving_icon + 3 + 3 /\
    threads w' = threads Scenario.serving_icon /\
    fs_files w' !! "site/favicon.png"%string
      = Some (content Scenario.icon ++
              watermark_at (H := Scenario.imports) (utcnow Scenario.serving_icon)
                "http://h/favicon.png")%string.
Proof.
  exact (LinkTag_run_fetches_other_links_twice (H := Scenario.imports)
           Scenario.favicon Scenario.serving_icon Scenario.icon 3
           eq_refl eq_refl
           (may_write_fresh "site/favicon.png" Scenario.serving_icon
              eq_refl eq_refl eq_refl eq_refl eq_refl eq_refl eq_refl
              eq_refl eq_refl)
           eq_refl eq_refl eq_refl eq_refl
           (cache_sound_empty Scenario.serving_icon eq_refl) eq_refl
           eq_refl eq_refl).
Defined.
